(** * SDN-WISE agent (Contiki-NG): flow table, packet processing, report

    A shallow embedding of [sdn-wise-agent.c]: the global flow table and
    statistics block become an explicit [agent] state, the C integer types
    are [Z] with their wrap-around written out, raw packet buffers are lists
    of [byte], and every [LOG_INFO]/[LOG_WARN] call becomes an event of the
    trace the function returns (the functions themselves return [void]).
    The receive callback and the process thread are modelled as the events of
    a run; [send_sensor_data] of [sensor-node.c] is in [SensorNode]. *)

From Stdlib Require Import ZArith List Lia Bool.
From Stdlib Require Import Strings.Byte.
From Stdlib Require Import DecimalString.
From stdpp Require Import base list strings.

Open Scope Z_scope.

(** ** C integer types *)

Module CInt.

(** Conversion to [uint8_t], [uint16_t] and [uint32_t]. *)
Definition wrap8 (z : Z) : Z := z mod 2 ^ 8.
Definition wrap16 (z : Z) : Z := z mod 2 ^ 16.
Definition wrap32 (z : Z) : Z := z mod 2 ^ 32.

(** The value of a byte of a buffer, as the [int] it is promoted to. *)
Definition Z_of_byte (b : byte) : Z := Z.of_N (Byte.to_N b).

(** Storing an [int] into a [uint8_t] cell of a buffer. *)
Definition byte_of_Z (z : Z) : byte :=
  match Byte.of_N (Z.to_N (wrap8 z)) with
  | Some b => b
  | None => x00
  end.

(** [data[i]]; a read past the end of the list stands for a read past the
    end of the buffer and yields 0 here. *)
Definition byte_at (data : list byte) (i : nat) : Z :=
  Z_of_byte (nth i data x00).

(** [(hi << 8) | lo] stored into a [uint16_t]. *)
Definition be16 (hi lo : Z) : Z := wrap16 (Z.lor (Z.shiftl hi 8) lo).

End CInt.
Import CInt.

(** ** Constants *)

Definition WISE_TYPE_DATA : Z := 0x01.
Definition WISE_TYPE_BEACON : Z := 0x02.
Definition WISE_TYPE_REPORT : Z := 0x03.
Definition WISE_TYPE_REQUEST : Z := 0x04.
Definition WISE_TYPE_RESPONSE : Z := 0x05.
Definition WISE_TYPE_OPEN_PATH : Z := 0x06.
Definition WISE_TYPE_CONFIG : Z := 0x10.
Definition WISE_TYPE_REG_PROXY : Z := 0x11.
Definition WISE_TYPE_FLOW_RULE : Z := 0x12.

Definition MAX_FLOW_RULES : Z := 10.

(** ** State *)

(** [flow_rule_t] *)
Record flow_rule_t : Type := mk_flow_rule {
  active : Z;        (* uint8_t *)
  src_addr : Z;      (* uint16_t *)
  dst_addr : Z;      (* uint16_t *)
  action : Z;        (* uint8_t: 0 DROP, 1 FORWARD, 2 ASK_CONTROLLER *)
  next_hop : Z;      (* uint16_t *)
  packet_count : Z   (* uint32_t *)
}.

(** The anonymous [stats] struct. *)
Record stats_t : Type := mk_stats {
  packets_sent : Z;
  packets_received : Z;
  packets_forwarded : Z;
  packets_dropped : Z
}.

(** The globals of the agent: [flow_table], [flow_count], [stats]. *)
Record agent : Type := mk_agent {
  flow_table : list flow_rule_t;
  flow_count : Z;    (* uint8_t *)
  stats : stats_t
}.

(** The messages of the [LOG_WARN] and [LOG_INFO] calls, with their
    arguments. *)
Inductive log_event : Type :=
| Warn_flow_table_full
| Info_flow_added (src dst act next : Z)
| Info_flow_table_cleared
| Warn_packet_too_short (len : Z)
| Info_rx (packet_type src dst ttl : Z)
| Info_forwarding (next : Z)
| Warn_no_flow_rule
| Info_configuration
| Warn_unknown_type (packet_type : Z)
| Info_report_sent (sent rx : Z).

(** A slot after [memset (.., 0, ..)]. *)
Definition zero_rule : flow_rule_t := mk_flow_rule 0 0 0 0 0 0.

(** ** Flow table management *)

(** [flow_table_add]: the return value, the new state and the trace.  The
    six assignments to [flow_table[flow_count]] overwrite every field of the
    slot, so they are one write of the whole struct. *)
Definition flow_table_add (src dst act nh : Z) (s : agent)
  : Z * agent * list log_event :=
  if MAX_FLOW_RULES <=? flow_count s then
    (-1, s, [Warn_flow_table_full])
  else
    let slot := mk_flow_rule 1 src dst act nh 0 in
    (0,
     mk_agent (<[Z.to_nat (flow_count s) := slot]> (flow_table s))
              (wrap8 (flow_count s + 1))
              (stats s),
     [Info_flow_added src dst act nh]).

(** The test of the loop body of [flow_table_lookup]. *)
Definition rule_matches (src dst : Z) (r : flow_rule_t) : bool :=
  negb (active r =? 0) && (src_addr r =? src) && (dst_addr r =? dst).

(** The [for] loop of [flow_table_lookup], at index [i] with [n] iterations
    left ([n] is [flow_count - i]).  The result is the index of the slot the
    returned pointer designates. *)
Fixpoint flow_table_scan (tbl : list flow_rule_t) (src dst : Z)
    (i n : nat) : option nat :=
  match n with
  | O => None
  | S n' =>
      match tbl !! i with
      | Some r =>
          if rule_matches src dst r then Some i
          else flow_table_scan tbl src dst (S i) n'
      | None => None (* a read past the array *)
      end
  end.

Definition flow_table_lookup (src dst : Z) (s : agent) : option nat :=
  flow_table_scan (flow_table s) src dst 0 (Z.to_nat (flow_count s)).

Definition flow_table_clear (s : agent) : agent * list log_event :=
  (mk_agent (replicate (Z.to_nat MAX_FLOW_RULES) zero_rule) 0 (stats s),
   [Info_flow_table_cleared]).

(** ** Packet processing *)

(** [stats.packets_received++] and its siblings. *)
Definition incr_received (s : agent) : agent :=
  let st := stats s in
  mk_agent (flow_table s) (flow_count s)
    (mk_stats (packets_sent st) (wrap32 (packets_received st + 1))
              (packets_forwarded st) (packets_dropped st)).

Definition incr_forwarded (s : agent) : agent :=
  let st := stats s in
  mk_agent (flow_table s) (flow_count s)
    (mk_stats (packets_sent st) (packets_received st)
              (wrap32 (packets_forwarded st + 1)) (packets_dropped st)).

Definition incr_dropped (s : agent) : agent :=
  let st := stats s in
  mk_agent (flow_table s) (flow_count s)
    (mk_stats (packets_sent st) (packets_received st)
              (packets_forwarded st) (wrap32 (packets_dropped st + 1))).

Definition incr_sent (s : agent) : agent :=
  let st := stats s in
  mk_agent (flow_table s) (flow_count s)
    (mk_stats (wrap32 (packets_sent st + 1)) (packets_received st)
              (packets_forwarded st) (packets_dropped st)).

(** [rule->packet_count++] for the rule in slot [i]. *)
Definition hit (r : flow_rule_t) : flow_rule_t :=
  mk_flow_rule (active r) (src_addr r) (dst_addr r) (action r) (next_hop r)
               (wrap32 (packet_count r + 1)).

Definition incr_packet_count (i : nat) (s : agent) : agent :=
  mk_agent (alter hit i (flow_table s)) (flow_count s) (stats s).

(** The fields read from the first seven bytes. *)
Definition hdr_type (data : list byte) : Z := byte_at data 1.
Definition hdr_dst (data : list byte) : Z :=
  be16 (byte_at data 2) (byte_at data 3).
Definition hdr_src (data : list byte) : Z :=
  be16 (byte_at data 4) (byte_at data 5).
Definition hdr_ttl (data : list byte) : Z := byte_at data 6.

(** The [switch (packet_type)] statement of [process_wise_packet]. *)
Definition wise_switch (data : list byte) (len : Z) (s : agent)
  : agent * list log_event :=
  let packet_type := hdr_type data in
  let dst_addr := hdr_dst data in
  let src_addr := hdr_src data in
  if packet_type =? WISE_TYPE_FLOW_RULE then
    if 14 <=? len then
      let action := byte_at data 7 in
      let next_hop := be16 (byte_at data 8) (byte_at data 9) in
      let '(_, s', lg) := flow_table_add src_addr dst_addr action next_hop s in
      (s', lg)
    else (s, [])
  else if packet_type =? WISE_TYPE_DATA then
    match flow_table_lookup src_addr dst_addr s with
    | Some i =>
        let s' := incr_forwarded (incr_packet_count i s) in
        let nh := match flow_table s' !! i with
                  | Some r => next_hop r
                  | None => 0 (* not reached: the scan returns read slots *)
                  end in
        (s', [Info_forwarding nh])
    | None => (incr_dropped s, [Warn_no_flow_rule])
    end
  else if packet_type =? WISE_TYPE_CONFIG then (s, [Info_configuration])
  else (s, [Warn_unknown_type packet_type]).

(** [process_wise_packet (data, len)] *)
Definition process_wise_packet (data : list byte) (len : Z) (s : agent)
  : agent * list log_event :=
  if len <? 7 then (s, [Warn_packet_too_short len])
  else
    let rx := Info_rx (hdr_type data) (hdr_src data) (hdr_dst data)
                      (hdr_ttl data) in
    let '(s', lg) := wise_switch data len (incr_received s) in
    (s', rx :: lg).

(** A run of the receive callback over the packets of [pkts], each with the
    length the transport hands over. *)
Fixpoint process_all (pkts : list (list byte * Z)) (s : agent) : agent :=
  match pkts with
  | [] => s
  | (data, len) :: rest => process_all rest (fst (process_wise_packet data len s))
  end.

(** ** Report *)

(** [send_report_to_controller].  [node_is_root] is the answer of
    [NETSTACK_ROUTING.node_is_root ()], [linkaddr] the bytes of
    [linkaddr_node_addr], and [buffer0] the contents the automatic array
    [buffer[32]] happens to have when the function is entered (the code does
    not initialise it).  The second component is the datagram handed to
    [simple_udp_sendto], if any. *)
Definition send_report_to_controller (node_is_root : bool)
    (linkaddr buffer0 : list byte) (s : agent)
  : agent * option (list byte) * list log_event :=
  if node_is_root then (s, None, [])
  else
    let buffer := buffer0 in
    let buffer := <[0%nat := byte_of_Z 20]> buffer in
    let buffer := <[1%nat := byte_of_Z WISE_TYPE_REPORT]> buffer in
    let node_id := be16 (byte_at linkaddr 6) (byte_at linkaddr 7) in
    let buffer := <[2%nat := byte_of_Z (Z.land (Z.shiftr node_id 8) 0xFF)]> buffer in
    let buffer := <[3%nat := byte_of_Z (Z.land node_id 0xFF)]> buffer in
    let sent := packets_sent (stats s) in
    let buffer := <[7%nat := byte_of_Z (Z.land (Z.shiftr sent 24) 0xFF)]> buffer in
    let buffer := <[8%nat := byte_of_Z (Z.land (Z.shiftr sent 16) 0xFF)]> buffer in
    let buffer := <[9%nat := byte_of_Z (Z.land (Z.shiftr sent 8) 0xFF)]> buffer in
    let buffer := <[10%nat := byte_of_Z (Z.land sent 0xFF)]> buffer in
    (incr_sent s, Some (take 20 buffer),
     [Info_report_sent sent (packets_received (stats s))]).

(** ** Vocabulary of the statements *)

(** What the declarations guarantee of a state the code can be in: the array
    has its ten slots and [flow_count] never passes the capacity. *)
Definition wf (s : agent) : Prop :=
  length (flow_table s) = Z.to_nat MAX_FLOW_RULES /\
  0 <= flow_count s <= MAX_FLOW_RULES.

(** The state after [flow_table_add], and its return value. *)
Definition add_state (src dst act nh : Z) (s : agent) : agent :=
  (flow_table_add src dst act nh s).1.2.
Definition add_ret (src dst act nh : Z) (s : agent) : Z :=
  (flow_table_add src dst act nh s).1.1.

(** The state at process start: statistics zeroed, table cleared. *)
Definition init_agent : agent :=
  (flow_table_clear (mk_agent [] 0 (mk_stats 0 0 0 0))).1.

(** The number of slots of the array that are marked active. *)
Definition count_active (tbl : list flow_rule_t) : nat :=
  length (List.filter (fun r => negb (active r =? 0)) tbl).

(** The four cases of the [switch]. *)
Inductive switch_case (data : list byte) (len : Z) (s : agent)
  : agent * list log_event -> Prop :=
| case_flow_rule :
    hdr_type data = WISE_TYPE_FLOW_RULE -> 14 <= len ->
    switch_case data len s
      (let r := flow_table_add (hdr_src data) (hdr_dst data) (byte_at data 7)
                  (be16 (byte_at data 8) (byte_at data 9)) s in
       (r.1.2, r.2))
| case_flow_rule_short :
    hdr_type data = WISE_TYPE_FLOW_RULE -> len < 14 ->
    switch_case data len s (s, [])
| case_data_hit i :
    hdr_type data = WISE_TYPE_DATA ->
    flow_table_lookup (hdr_src data) (hdr_dst data) s = Some i ->
    switch_case data len s
      (incr_forwarded (incr_packet_count i s),
       [Info_forwarding
          match alter hit i (flow_table s) !! i with
          | Some r => next_hop r
          | None => 0
          end])
| case_data_miss :
    hdr_type data = WISE_TYPE_DATA ->
    flow_table_lookup (hdr_src data) (hdr_dst data) s = None ->
    switch_case data len s (incr_dropped s, [Warn_no_flow_rule])
| case_config :
    hdr_type data = WISE_TYPE_CONFIG ->
    switch_case data len s (s, [Info_configuration])
| case_default :
    hdr_type data <> WISE_TYPE_FLOW_RULE -> hdr_type data <> WISE_TYPE_DATA ->
    hdr_type data <> WISE_TYPE_CONFIG ->
    switch_case data len s (s, [Warn_unknown_type (hdr_type data)]).

(** The slot that [flow_table_add (src, dst, action, next_hop)] writes. *)
Definition new_rule (a : Z * Z * Z * Z) : flow_rule_t :=
  let '(src, dst, act, nh) := a in mk_flow_rule 1 src dst act nh 0.

(** A sequence of [flow_table_add] calls, one per element of [rules], with
    the return values in order and the final state. *)
Fixpoint add_all (rules : list (Z * Z * Z * Z)) (s : agent) : list Z * agent :=
  match rules with
  | [] => ([], s)
  | (src, dst, act, nh) :: rest =>
      let r := add_all rest (add_state src dst act nh s) in
      (add_ret src dst act nh s :: r.1, r.2)
  end.

(** Slot [i] holds the rule [(src, dst, act, nh)], whatever its hit count. *)
Definition holds_rule (s : agent) (i : nat) (src dst act nh : Z) : Prop :=
  exists c, flow_table s !! i = Some (mk_flow_rule 1 src dst act nh c).

(** The characterisation of the lookup: the slot it returns is in use,
    active and matches both addresses, and no slot before it does; it
    returns nothing only when no slot in use does. *)
Definition first_match (src dst : Z) (s : agent) (res : option nat) : Prop :=
  match res with
  | Some i =>
      Z.of_nat i < flow_count s /\
      exists r, flow_table s !! i = Some r /\
        (active r <> 0 /\ src_addr r = src /\ dst_addr r = dst) /\
        forall j r', (j < i)%nat -> flow_table s !! j = Some r' ->
          ~ (active r' <> 0 /\ src_addr r' = src /\ dst_addr r' = dst)
  | None =>
      forall j r', Z.of_nat j < flow_count s -> flow_table s !! j = Some r' ->
        ~ (active r' <> 0 /\ src_addr r' = src /\ dst_addr r' = dst)
  end.

(** A buffer of at least the header size that carries a DATA packet from
    [src] to [dst]. *)
Definition is_data_for (src dst : Z) (p : list byte * Z) : Prop :=
  7 <= p.2 /\ hdr_type p.1 = WISE_TYPE_DATA /\
  hdr_src p.1 = src /\ hdr_dst p.1 = dst.

(** The test that a received buffer is a DATA packet from [src] to [dst]
    with a complete header: the packets whose lookup asks for that key. *)
Definition is_data_forb (src dst : Z) (p : list byte * Z) : bool :=
  (7 <=? p.2) && (hdr_type p.1 =? WISE_TYPE_DATA) &&
  (hdr_src p.1 =? src) && (hdr_dst p.1 =? dst).

(** How many packets of a run look the key [(src, dst)] up. *)
Definition lookups_of (src dst : Z) (pkts : list (list byte * Z)) : Z :=
  Z.of_nat (length (List.filter (is_data_forb src dst) pkts)).

(** The rule [r] with its [action] field replaced. *)
Definition set_action (a : Z) (r : flow_rule_t) : flow_rule_t :=
  mk_flow_rule (active r) (src_addr r) (dst_addr r) a (next_hop r)
               (packet_count r).

(** The state with every [action] field blanked: two states with the same
    image differ in [action] fields only. *)
Definition forget_actions (s : agent) : agent :=
  mk_agent (set_action 0 <$> flow_table s) (flow_count s) (stats s).

(** ** The receive callback, the process thread and runs of the agent *)

Definition UDP_CLIENT_PORT : Z := 8765.
Definition UDP_SERVER_PORT : Z := 5678.

(** The messages of the callback and of the process thread, beside those of
    the functions they call ([Called]). *)
Inductive process_log : Type :=
| Called (e : log_event)
| Info_udp_rx (sender : list byte) (datalen : Z)
| Info_agent_started
| Info_node_id (node_id : Z)
| Info_listening (port : Z)
| Info_border_router
| Info_sensor_node
| Info_stats_banner
| Info_stats (tx rx fwd drop : Z)
| Info_flows (count max : Z).

(** [udp_rx_callback]: of its arguments only the sender address (logged),
    [data] and [datalen] are used. *)
Definition udp_rx_callback (sender data : list byte) (datalen : Z) (s : agent)
  : agent * list process_log :=
  let r := process_wise_packet data datalen s in
  (r.1, Info_udp_rx sender datalen :: (Called <$> r.2)).

(** The process thread up to its first wait: [memset (&stats, 0, ..)],
    [flow_table_clear ()], the node id, the registration of the callback. *)
Definition agent_startup (linkaddr : list byte) (s : agent)
  : agent * list process_log :=
  let s1 := mk_agent (flow_table s) (flow_count s) (mk_stats 0 0 0 0) in
  let r := flow_table_clear s1 in
  let node_id := be16 (byte_at linkaddr 6) (byte_at linkaddr 7) in
  (r.1,
   Info_agent_started :: (Called <$> r.2) ++
   [Info_node_id node_id; Info_listening UDP_CLIENT_PORT]).

(** One turn of the [while (1)] loop after [PROCESS_WAIT_EVENT ()].  The two
    booleans are the answers of [etimer_expired] for [periodic_timer] and
    [stats_timer]; the timers themselves belong to the scheduler. *)
Definition agent_wakeup (periodic_expired stats_expired node_is_root : bool)
    (linkaddr buffer0 : list byte) (s : agent)
  : agent * option (list byte) * list process_log :=
  let r := if periodic_expired
           then send_report_to_controller node_is_root linkaddr buffer0 s
           else (s, None, []) in
  let s1 := r.1.1 in
  let lg := if stats_expired
            then [Info_stats_banner;
                  Info_stats (packets_sent (stats s1)) (packets_received (stats s1))
                             (packets_forwarded (stats s1))
                             (packets_dropped (stats s1));
                  Info_flows (flow_count s1) MAX_FLOW_RULES]
            else [] in
  (s1, r.1.2, (Called <$> r.2) ++ lg).

(** What happens to a started agent: a datagram arrives, or the process is
    woken up. *)
Inductive agent_event : Type :=
| Udp_datagram (sender data : list byte) (datalen : Z)
| Wakeup (periodic_expired stats_expired node_is_root : bool)
         (buffer0 : list byte).

(** A run: the final state and the report datagrams sent, in order. *)
Fixpoint agent_run (linkaddr : list byte) (evs : list agent_event) (s : agent)
  : agent * list (list byte) :=
  match evs with
  | [] => (s, [])
  | Udp_datagram sender data datalen :: rest =>
      agent_run linkaddr rest (udp_rx_callback sender data datalen s).1
  | Wakeup p st root buffer0 :: rest =>
      let r := agent_wakeup p st root linkaddr buffer0 s in
      let r' := agent_run linkaddr rest r.1.1 in
      (r'.1, match r.1.2 with Some d => d :: r'.2 | None => r'.2 end)
  end.





(** The values a slot in use can hold: written by [flow_table_add] from the
    typed fields of a FLOW_RULE packet, counted by the DATA branch. *)
Definition rule_in_range (r : flow_rule_t) : Prop :=
  active r = 1 /\ 0 <= src_addr r < 2 ^ 16 /\ 0 <= dst_addr r < 2 ^ 16 /\
  0 <= action r < 2 ^ 8 /\ 0 <= next_hop r < 2 ^ 16 /\
  0 <= packet_count r < 2 ^ 32.

Definition table_inv (s : agent) : Prop :=
  wf s /\
  forall (j : nat) (r : flow_rule_t), flow_table s !! j = Some r ->
    (Z.of_nat j < flow_count s -> rule_in_range r) /\
    (flow_count s <= Z.of_nat j -> r = zero_rule).

Definition stats_in_range (st : stats_t) : Prop :=
  0 <= packets_sent st < 2 ^ 32 /\ 0 <= packets_received st < 2 ^ 32 /\
  0 <= packets_forwarded st < 2 ^ 32 /\ 0 <= packets_dropped st < 2 ^ 32.

(** The sum of the hit counts of the table. *)
Definition sum_hits (tbl : list flow_rule_t) : Z :=
  foldr (fun r acc => packet_count r + acc) 0 tbl.

(** The big-endian 32-bit value at offsets [i .. i+3] of a buffer. *)
Definition be32_at (pkt : list byte) (i : nat) : Z :=
  2 ^ 24 * byte_at pkt i + 2 ^ 16 * byte_at pkt (i + 1)
  + 2 ^ 8 * byte_at pkt (i + 2) + byte_at pkt (i + 3).

(** The rule [r] with another hit count. *)
Definition with_count (c : Z) (r : flow_rule_t) : flow_rule_t :=
  mk_flow_rule (active r) (src_addr r) (dst_addr r) (action r) (next_hop r) c.

(** After the wait for the network to form: the role is logged. *)
Definition agent_network_formed (node_is_root : bool) : list process_log :=
  [if node_is_root then Info_border_router else Info_sensor_node].

(** The automatic array of each wake-up has its 32 bytes. *)
Definition event_ok (ev : agent_event) : Prop :=
  match ev with
  | Udp_datagram _ _ _ => True
  | Wakeup _ _ _ buffer0 => length buffer0 = 32%nat
  end.

(** The hits counted in the table and the forwarded counter agree modulo
    2^32. *)
Definition hits_agree (s : agent) : Prop :=
  (sum_hits (flow_table s) - packets_forwarded (stats s)) mod 2 ^ 32 = 0.

(** ** The sensor application ([sensor-node.c]) *)

Module SensorNode.

(** The simulated readings [temperature], [humidity] and [light]. *)
Record readings : Type := mk_readings {
  temperature : Z;
  humidity : Z;
  light : Z
}.

Definition initial_readings : readings := mk_readings 20 50 100.

(** What [send_sensor_data] does to the outside, in order. *)
Inductive effect : Type :=
| Warn_no_route
| Udp_sendto (payload : string)
| Info_sent (text : string)
| Leds_on_blue
| Clock_delay_usec (usec : Z)
| Leds_off_blue.

(** The conversion [%d]. *)
Definition decimal (z : Z) : string := NilZero.string_of_int (Z.to_int z).

(** What [snprintf (buffer, size, ..)] leaves in the buffer before the
    terminating NUL, given the whole formatted text. *)
Definition snprintf (size : nat) (text : string) : string :=
  String.substring 0 (size - 1) text.

(** [send_sensor_data].  [have_root] is the answer of
    [NETSTACK_ROUTING.get_root_ipaddr], [r1], [r2], [r3] are the three
    values [rand ()] returns, [platform_native] tells whether
    [PLATFORM_NATIVE] is defined.  [%] on [int] is [Z.rem]; the sums stay
    far from the bounds of [int].  The text holds no NUL, so
    [strlen (buffer)] bytes are the whole buffer contents. *)
Definition send_sensor_data (node_is_root have_root platform_native : bool)
    (r1 r2 r3 : Z) (st : readings) : readings * list effect :=
  if node_is_root then (st, [])
  else if negb have_root then (st, [Warn_no_route])
  else
    let temperature := 20 + Z.rem r1 10 in
    let humidity := 50 + Z.rem r2 20 in
    let light := 100 + Z.rem r3 50 in
    let buffer :=
      snprintf 64
        ("SENSOR:temp=" +:+ decimal temperature +:+ ",hum=" +:+
         decimal humidity +:+ ",light=" +:+ decimal light)%string in
    (mk_readings temperature humidity light,
     [Udp_sendto buffer; Info_sent buffer; Leds_on_blue] ++
     (if platform_native then [] else [Clock_delay_usec 50000]) ++
     [Leds_off_blue]).

End SensorNode.

(** ** Arithmetic of the C types *)

Section Bytes.

Lemma Z_of_byte_range (b : byte) : 0 <= Z_of_byte b < 256.
Proof.
  unfold Z_of_byte. pose proof (Byte.to_N_bounded b). lia.
Qed.

Lemma byte_at_range (data : list byte) (i : nat) : 0 <= byte_at data i < 256.
Proof. apply Z_of_byte_range. Qed.

Lemma Z_of_byte_of_Z (z : Z) : Z_of_byte (byte_of_Z z) = z mod 256.
Proof.
  unfold byte_of_Z, Z_of_byte, wrap8.
  assert (Hr : 0 <= z mod 2 ^ 8 < 256) by (apply Z.mod_pos_bound; lia).
  destruct (Byte.of_N (Z.to_N (z mod 2 ^ 8))) as [b|] eqn:E.
  - apply Byte.to_of_N in E. rewrite E. rewrite Z2N.id by lia. reflexivity.
  - apply Byte.of_N_None_iff in E. lia.
Qed.

Lemma byte_of_Z_of_byte (b : byte) : byte_of_Z (Z_of_byte b) = b.
Proof.
  unfold byte_of_Z, wrap8. pose proof (Z_of_byte_range b) as Hr.
  rewrite Z.mod_small by lia. unfold Z_of_byte. rewrite N2Z.id.
  rewrite Byte.of_to_N. reflexivity.
Qed.

Lemma land_shiftl8_low (hi lo : Z) :
  0 <= lo < 256 -> Z.land (Z.shiftl hi 8) lo = 0.
Proof.
  intros Hlo. apply Z.bits_inj'. intros n Hn.
  rewrite Z.land_spec, Z.bits_0.
  destruct (Z.ltb_spec n 8) as [Hlt|Hge].
  - rewrite Z.shiftl_spec_low by lia. reflexivity.
  - replace lo with (lo mod 2 ^ 8) by (apply Z.mod_small; lia).
    rewrite Z.mod_pow2_bits_high by lia. apply andb_false_r.
Qed.

Lemma be16_value (hi lo : Z) :
  0 <= hi < 256 -> 0 <= lo < 256 -> be16 hi lo = 256 * hi + lo.
Proof.
  intros Hhi Hlo. unfold be16, wrap16.
  rewrite <- Z.lxor_lor by (apply land_shiftl8_low; assumption).
  rewrite <- Z.add_nocarry_lxor by (apply land_shiftl8_low; assumption).
  rewrite Z.shiftl_mul_pow2 by lia.
  rewrite Z.mod_small; lia.
Qed.

Lemma be16_range (hi lo : Z) : 0 <= be16 hi lo < 65536.
Proof. unfold be16, wrap16. apply Z.mod_pos_bound. lia. Qed.

Lemma land_255 (z : Z) : Z.land z 0xFF = z mod 256.
Proof. change 0xFF with (Z.ones 8). rewrite Z.land_ones by lia. reflexivity. Qed.

(** The byte stored by [buffer[k] = (x >> n) & 0xFF]. *)
Lemma stored_byte (x n : Z) :
  0 <= n ->
  Z_of_byte (byte_of_Z (Z.land (Z.shiftr x n) 0xFF)) = (x / 2 ^ n) mod 256.
Proof.
  intros Hn. rewrite Z_of_byte_of_Z, land_255, Z.shiftr_div_pow2 by lia.
  apply Z.mod_mod. lia.
Qed.

End Bytes.

(** ** The flow table as an array of [MAX_FLOW_RULES] slots *)

Section Scan.

Variables (src dst : Z).

Lemma rule_matches_hit (r : flow_rule_t) :
  rule_matches src dst (hit r) = rule_matches src dst r.
Proof. reflexivity. Qed.

Lemma rule_matches_true (r : flow_rule_t) :
  rule_matches src dst r = true <->
  active r <> 0 /\ src_addr r = src /\ dst_addr r = dst.
Proof.
  unfold rule_matches.
  rewrite !andb_true_iff, negb_true_iff, Z.eqb_neq, !Z.eqb_eq. tauto.
Qed.

Lemma scan_Some (tbl : list flow_rule_t) (n i k : nat) :
  flow_table_scan tbl src dst i n = Some k ->
  (i <= k < i + n)%nat /\
  exists r, tbl !! k = Some r /\ rule_matches src dst r = true /\
    forall j r', (i <= j < k)%nat -> tbl !! j = Some r' ->
                 rule_matches src dst r' = false.
Proof.
  revert i. induction n as [|n IH]; intros i H; simpl in H; [discriminate|].
  destruct (tbl !! i) as [r|] eqn:Hi; [|discriminate].
  destruct (rule_matches src dst r) eqn:Hm.
  - injection H as <-. split; [lia|]. exists r. repeat split; auto.
    intros j r' Hj. lia.
  - apply IH in H as [Hk (r0 & Hr0 & Hm0 & Hlow)]. split; [lia|].
    exists r0. repeat split; auto. intros j r' Hj Hj'.
    destruct (decide (j = i)) as [->|Hne].
    + congruence.
    + apply (Hlow j r'); [lia|assumption].
Qed.

Lemma scan_None (tbl : list flow_rule_t) (n i : nat) :
  (i + n <= length tbl)%nat ->
  flow_table_scan tbl src dst i n = None ->
  forall j r', (i <= j < i + n)%nat -> tbl !! j = Some r' ->
               rule_matches src dst r' = false.
Proof.
  revert i. induction n as [|n IH]; intros i Hlen H j r' Hj Hr'; [lia|].
  simpl in H. destruct (tbl !! i) as [r|] eqn:Hi.
  - destruct (rule_matches src dst r) eqn:Hm; [discriminate|].
    destruct (decide (j = i)) as [->|Hne]; [congruence|].
    apply (IH (S i)) with (j := j); auto; lia.
  - apply lookup_ge_None in Hi. lia.
Qed.

Lemma scan_first (tbl : list flow_rule_t) (n i k : nat) (r : flow_rule_t) :
  (i <= k < i + n)%nat -> tbl !! k = Some r ->
  rule_matches src dst r = true ->
  (forall j r', (i <= j < k)%nat -> tbl !! j = Some r' ->
                rule_matches src dst r' = false) ->
  flow_table_scan tbl src dst i n = Some k.
Proof.
  revert i. induction n as [|n IH]; intros i Hk Hr Hm Hlow; [lia|].
  simpl. destruct (decide (i = k)) as [->|Hne].
  - rewrite Hr, Hm. reflexivity.
  - assert (Hlt : (i < length tbl)%nat).
    { apply lookup_lt_Some in Hr. lia. }
    destruct (lookup_lt_is_Some_2 tbl i Hlt) as [ri Hri].
    rewrite Hri, (Hlow i ri) by (auto; lia).
    apply IH; auto; [lia|]. intros j r' Hj. apply Hlow. lia.
Qed.

(** The scan reads nothing but the test of each slot it visits. *)
Lemma scan_ext (tbl tbl' : list flow_rule_t) (n i : nat) :
  (forall j, (i <= j < i + n)%nat ->
     rule_matches src dst <$> tbl !! j = rule_matches src dst <$> tbl' !! j) ->
  flow_table_scan tbl src dst i n = flow_table_scan tbl' src dst i n.
Proof.
  revert i. induction n as [|n IH]; intros i H; [reflexivity|].
  simpl. pose proof (H i ltac:(lia)) as Hi.
  destruct (tbl !! i) as [r|], (tbl' !! i) as [r'|]; simpl in Hi;
    try discriminate; [|reflexivity].
  injection Hi as ->.
  destruct (rule_matches src dst r'); [reflexivity|].
  apply IH. intros j Hj. apply H. lia.
Qed.

(** One more iteration at the end of the loop. *)
Lemma scan_snoc (tbl : list flow_rule_t) (n i : nat) :
  (i + n <= length tbl)%nat ->
  flow_table_scan tbl src dst i (S n) =
  match flow_table_scan tbl src dst i n with
  | Some k => Some k
  | None =>
      match tbl !! (i + n)%nat with
      | Some r => if rule_matches src dst r then Some (i + n)%nat else None
      | None => None
      end
  end.
Proof.
  revert i. induction n as [|n IH]; intros i Hlen.
  - simpl. rewrite Nat.add_0_r. destruct (tbl !! i) as [r|]; [|reflexivity].
    destruct (rule_matches src dst r); reflexivity.
  - change (flow_table_scan tbl src dst i (S (S n))) with
      (match tbl !! i with
       | Some r => if rule_matches src dst r then Some i
                   else flow_table_scan tbl src dst (S i) (S n)
       | None => None
       end).
    change (flow_table_scan tbl src dst i (S n)) with
      (match tbl !! i with
       | Some r => if rule_matches src dst r then Some i
                   else flow_table_scan tbl src dst (S i) n
       | None => None
       end).
    destruct (tbl !! i) as [r|] eqn:Hi.
    + destruct (rule_matches src dst r); [reflexivity|].
      rewrite IH by lia. replace (S i + n)%nat with (i + S n)%nat by lia.
      reflexivity.
    + apply lookup_ge_None in Hi. lia.
Qed.

End Scan.

(** ** Insertion and lookup on well-formed states *)

Lemma wrap8_count (c : Z) : 0 <= c < MAX_FLOW_RULES -> wrap8 (c + 1) = c + 1.
Proof. unfold MAX_FLOW_RULES, wrap8. intros H. apply Z.mod_small. lia. Qed.

Lemma wf_init : wf init_agent.
Proof. split; [reflexivity|]. simpl. unfold MAX_FLOW_RULES. lia. Qed.

Lemma wf_clear (s : agent) : wf (flow_table_clear s).1.
Proof. split; [reflexivity|]. simpl. unfold MAX_FLOW_RULES. lia. Qed.

Lemma add_full (src dst act nh : Z) (s : agent) :
  MAX_FLOW_RULES <= flow_count s ->
  flow_table_add src dst act nh s = (-1, s, [Warn_flow_table_full]).
Proof.
  intros H. unfold flow_table_add.
  destruct (Z.leb_spec MAX_FLOW_RULES (flow_count s)); [reflexivity|lia].
Qed.

Lemma add_room (src dst act nh : Z) (s : agent) :
  wf s -> flow_count s < MAX_FLOW_RULES ->
  flow_table_add src dst act nh s =
  (0,
   mk_agent (<[Z.to_nat (flow_count s) := mk_flow_rule 1 src dst act nh 0]>
               (flow_table s))
            (flow_count s + 1) (stats s),
   [Info_flow_added src dst act nh]).
Proof.
  intros [_ Hc] H. unfold flow_table_add.
  destruct (Z.leb_spec MAX_FLOW_RULES (flow_count s)); [lia|].
  rewrite wrap8_count by lia. reflexivity.
Qed.

Lemma wf_add (src dst act nh : Z) (s : agent) :
  wf s -> wf (add_state src dst act nh s).
Proof.
  intros Hwf. unfold add_state.
  destruct (Z.lt_ge_cases (flow_count s) MAX_FLOW_RULES) as [Hlt|Hge].
  - rewrite add_room by assumption. destruct Hwf as [Hl Hc].
    split; simpl; [rewrite length_insert; assumption|lia].
  - rewrite add_full by assumption. assumption.
Qed.

(** Looking a key up after an insertion: an earlier match stays the answer;
    otherwise the new slot answers when its own key is the one asked for. *)
Lemma lookup_add (src dst act nh src' dst' : Z) (s : agent) :
  wf s -> flow_count s < MAX_FLOW_RULES ->
  flow_table_lookup src' dst' (add_state src dst act nh s) =
  match flow_table_lookup src' dst' s with
  | Some k => Some k
  | None =>
      if rule_matches src' dst' (mk_flow_rule 1 src dst act nh 0)
      then Some (Z.to_nat (flow_count s)) else None
  end.
Proof.
  intros Hwf Hlt. unfold add_state. rewrite add_room by assumption.
  destruct Hwf as [Hl Hc]. unfold flow_table_lookup. simpl.
  set (n := Z.to_nat (flow_count s)).
  assert (Hn : (n < length (flow_table s))%nat).
  { subst n. rewrite Hl. unfold MAX_FLOW_RULES in *. lia. }
  replace (Z.to_nat (flow_count s + 1)) with (S n) by (subst n; lia).
  rewrite scan_snoc by (rewrite length_insert; simpl; lia).
  rewrite (scan_ext src' dst' (<[n:=_]> (flow_table s)) (flow_table s)).
  - simpl. rewrite list_lookup_insert_eq by assumption. reflexivity.
  - intros j Hj. rewrite list_lookup_insert_ne by lia. reflexivity.
Qed.

(** Counting a hit changes no answer of the lookup. *)
Lemma lookup_incr_packet_count (src dst : Z) (i : nat) (s : agent) :
  flow_table_lookup src dst (incr_packet_count i s) = flow_table_lookup src dst s.
Proof.
  unfold flow_table_lookup. simpl. apply scan_ext. intros j _.
  rewrite list_lookup_alter. destruct (decide (i = j)) as [->|]; [|reflexivity].
  destruct (flow_table s !! j); reflexivity.
Qed.

Lemma lookup_lt (src dst : Z) (s : agent) (i : nat) :
  flow_table_lookup src dst s = Some i -> Z.of_nat i < flow_count s.
Proof.
  unfold flow_table_lookup. intros H. apply scan_Some in H as [H _]. lia.
Qed.

Lemma lookup_empty (src dst : Z) (s : agent) :
  flow_count s = 0 -> flow_table_lookup src dst s = None.
Proof. unfold flow_table_lookup. intros ->. reflexivity. Qed.

(** ** One packet *)

Lemma process_short (data : list byte) (len : Z) (s : agent) :
  len < 7 -> process_wise_packet data len s = (s, [Warn_packet_too_short len]).
Proof.
  intros H. unfold process_wise_packet.
  destruct (Z.ltb_spec len 7); [reflexivity|lia].
Qed.

Lemma process_long (data : list byte) (len : Z) (s : agent) :
  7 <= len ->
  process_wise_packet data len s =
  ((wise_switch data len (incr_received s)).1,
   Info_rx (hdr_type data) (hdr_src data) (hdr_dst data) (hdr_ttl data)
     :: (wise_switch data len (incr_received s)).2).
Proof.
  intros H. unfold process_wise_packet.
  destruct (Z.ltb_spec len 7); [lia|].
  destruct (wise_switch data len (incr_received s)). reflexivity.
Qed.

Lemma wise_switch_cases (data : list byte) (len : Z) (s : agent) :
  switch_case data len s (wise_switch data len s).
Proof.
  unfold wise_switch.
  destruct (Z.eqb_spec (hdr_type data) WISE_TYPE_FLOW_RULE) as [Ef|Ef].
  - destruct (Z.leb_spec 14 len) as [Hlen|Hlen].
    + pose proof (case_flow_rule data len s Ef Hlen) as H.
      simpl in H.
      destruct (flow_table_add (hdr_src data) (hdr_dst data) (byte_at data 7)
                  (be16 (byte_at data 8) (byte_at data 9)) s) as [[r s'] lg].
      exact H.
    + apply case_flow_rule_short; assumption.
  - destruct (Z.eqb_spec (hdr_type data) WISE_TYPE_DATA) as [Ed|Ed].
    + destruct (flow_table_lookup (hdr_src data) (hdr_dst data) s) eqn:El.
      * apply case_data_hit; assumption.
      * apply case_data_miss; assumption.
    + destruct (Z.eqb_spec (hdr_type data) WISE_TYPE_CONFIG) as [Ec|Ec].
      * apply case_config; assumption.
      * apply case_default; assumption.
Qed.

(** ** What one packet does to the table *)

Lemma wf_incr_received (s : agent) : wf s -> wf (incr_received s).
Proof. intros H. exact H. Qed.

Lemma wf_switch (data : list byte) (len : Z) (s : agent) :
  wf s -> wf (wise_switch data len s).1.
Proof.
  intros Hwf. destruct (wise_switch_cases data len s); simpl; try assumption.
  - apply (wf_add _ _ _ _ s Hwf).
  - destruct Hwf as [Hl Hc]. split; simpl; [rewrite length_alter|]; assumption.
Qed.

Lemma wf_process (data : list byte) (len : Z) (s : agent) :
  wf s -> wf (process_wise_packet data len s).1.
Proof.
  intros Hwf. destruct (Z.lt_ge_cases len 7).
  - rewrite process_short by assumption. assumption.
  - rewrite process_long by assumption. simpl.
    apply wf_switch, wf_incr_received, Hwf.
Qed.

Lemma wf_process_all (pkts : list (list byte * Z)) (s : agent) :
  wf s -> wf (process_all pkts s).
Proof.
  revert s. induction pkts as [|[data len] rest IH]; intros s Hwf; simpl.
  - assumption.
  - apply IH, wf_process, Hwf.
Qed.

(** The rule that answers a key keeps answering it, whatever arrives. *)
Lemma lookup_switch (src dst : Z) (i : nat) (data : list byte) (len : Z)
    (s : agent) :
  wf s -> flow_table_lookup src dst s = Some i ->
  flow_table_lookup src dst (wise_switch data len s).1 = Some i.
Proof.
  intros Hwf Hi. destruct (wise_switch_cases data len s); simpl; try assumption.
  - destruct (Z.lt_ge_cases (flow_count s) MAX_FLOW_RULES) as [Hlt|Hge].
    + pose proof (lookup_add (hdr_src data) (hdr_dst data) (byte_at data 7)
                    (be16 (byte_at data 8) (byte_at data 9)) src dst s Hwf Hlt)
        as H1.
      unfold add_state in H1. rewrite H1, Hi. reflexivity.
    + rewrite add_full by assumption. assumption.
  - change (flow_table_lookup src dst (incr_packet_count i0 s) = Some i).
    rewrite lookup_incr_packet_count. assumption.
Qed.

Lemma lookup_process (src dst : Z) (i : nat) (data : list byte) (len : Z)
    (s : agent) :
  wf s -> flow_table_lookup src dst s = Some i ->
  flow_table_lookup src dst (process_wise_packet data len s).1 = Some i.
Proof.
  intros Hwf Hi. destruct (Z.lt_ge_cases len 7).
  - rewrite process_short by assumption. assumption.
  - rewrite process_long by assumption. simpl.
    apply lookup_switch; [apply wf_incr_received, Hwf|exact Hi].
Qed.

(** A slot in use is left alone, except that the slot answering a DATA
    packet has its hit counted. *)
Lemma slot_switch (j : nat) (data : list byte) (len : Z) (s : agent) :
  wf s -> Z.of_nat j < flow_count s ->
  flow_table (wise_switch data len s).1 !! j = flow_table s !! j \/
  (hdr_type data = WISE_TYPE_DATA /\
   flow_table_lookup (hdr_src data) (hdr_dst data) s = Some j /\
   flow_table (wise_switch data len s).1 !! j = hit <$> flow_table s !! j).
Proof.
  intros Hwf Hj. destruct (wise_switch_cases data len s); simpl; auto.
  - left. destruct (Z.lt_ge_cases (flow_count s) MAX_FLOW_RULES) as [Hlt|Hge].
    + rewrite add_room by assumption. simpl.
      apply list_lookup_insert_ne. lia.
    + rewrite add_full by assumption. reflexivity.
  - destruct (decide (i = j)) as [->|Hne].
    + right. repeat split; auto.
      rewrite list_lookup_alter. destruct (decide (j = j)); [reflexivity|lia].
    + left. apply list_lookup_alter_ne. assumption.
Qed.

Lemma slot_process (j : nat) (data : list byte) (len : Z) (s : agent) :
  wf s -> Z.of_nat j < flow_count s ->
  flow_table (process_wise_packet data len s).1 !! j = flow_table s !! j \/
  (7 <= len /\ hdr_type data = WISE_TYPE_DATA /\
   flow_table_lookup (hdr_src data) (hdr_dst data) s = Some j /\
   flow_table (process_wise_packet data len s).1 !! j
   = hit <$> flow_table s !! j).
Proof.
  intros Hwf Hj. destruct (Z.lt_ge_cases len 7).
  - rewrite process_short by assumption. left. reflexivity.
  - rewrite process_long by assumption. simpl.
    destruct (slot_switch j data len (incr_received s) Hwf Hj) as [E|(?&?&?)];
      [left; exact E | right; auto].
Qed.

Lemma count_switch (data : list byte) (len : Z) (s : agent) :
  wf s -> flow_count s <= flow_count (wise_switch data len s).1.
Proof.
  intros Hwf. destruct (wise_switch_cases data len s); simpl; try lia.
  destruct (Z.lt_ge_cases (flow_count s) MAX_FLOW_RULES) as [Hlt|Hge].
  - rewrite add_room by assumption. simpl. lia.
  - rewrite add_full by assumption. simpl. lia.
Qed.

Lemma count_process (data : list byte) (len : Z) (s : agent) :
  wf s -> flow_count s <= flow_count (process_wise_packet data len s).1.
Proof.
  intros Hwf. destruct (Z.lt_ge_cases len 7).
  - rewrite process_short by assumption. simpl. lia.
  - rewrite process_long by assumption. simpl.
    apply (count_switch data len (incr_received s) Hwf).
Qed.

(** ** Sequences of insertions *)

Lemma count_active_app (l k : list flow_rule_t) :
  count_active (l ++ k) = (count_active l + count_active k)%nat.
Proof. unfold count_active. rewrite List.filter_app, length_app. reflexivity. Qed.

Lemma count_active_new (rules : list (Z * Z * Z * Z)) :
  count_active (new_rule <$> rules) = length rules.
Proof.
  induction rules as [|[[[src dst] act] nh] rest IH]; [reflexivity|].
  change (new_rule <$> (src, dst, act, nh) :: rest)
    with ([new_rule (src, dst, act, nh)] ++ (new_rule <$> rest)).
  rewrite count_active_app, IH. reflexivity.
Qed.

Lemma count_active_zero (n : nat) : count_active (replicate n zero_rule) = 0%nat.
Proof. induction n as [|n IH]; [reflexivity|]. exact IH. Qed.

Lemma add_all_spec (rules : list (Z * Z * Z * Z)) (s : agent) :
  wf s -> flow_count s + Z.of_nat (length rules) <= MAX_FLOW_RULES ->
  (add_all rules s).1 = replicate (length rules) 0 /\
  flow_count (add_all rules s).2 = flow_count s + Z.of_nat (length rules) /\
  flow_table (add_all rules s).2 =
    take (Z.to_nat (flow_count s)) (flow_table s) ++ (new_rule <$> rules) ++
    drop (Z.to_nat (flow_count s) + length rules) (flow_table s) /\
  stats (add_all rules s).2 = stats s.
Proof.
  revert s. induction rules as [|[[[src dst] act] nh] rest IH]; intros s Hwf Hc.
  - simpl. repeat split; [lia|].
    rewrite Nat.add_0_r, take_drop. reflexivity.
  - simpl length in *. cbn [add_all fst snd].
    assert (Hlt : flow_count s < MAX_FLOW_RULES) by lia.
    pose proof (wf_add src dst act nh s Hwf) as Hwf'.
    unfold add_ret, add_state in *. rewrite add_room in * by assumption.
    cbn [fst snd] in *.
    destruct (IH _ Hwf') as (Hr & Hn & Ht & Hs); [simpl; lia|].
    cbn [flow_count flow_table stats] in *.
    destruct Hwf as [Hl Hb]. set (n := Z.to_nat (flow_count s)) in *.
    assert (Hnl : (n < length (flow_table s))%nat).
    { subst n. rewrite Hl. unfold MAX_FLOW_RULES in *. lia. }
    repeat split.
    + rewrite Hr. reflexivity.
    + lia.
    + rewrite Ht. replace (Z.to_nat (flow_count s + 1)) with (S n) by (subst n; lia).
      rewrite (take_S_r _ n (mk_flow_rule 1 src dst act nh 0))
        by (apply list_lookup_insert_eq; assumption).
      rewrite take_insert_ge by lia. rewrite drop_insert_lt by lia.
      rewrite <- app_assoc. simpl.
      replace (S (n + length rest)) with (n + S (length rest))%nat by lia.
      reflexivity.
    + assumption.
Qed.

(** C1. Starting from the cleared table, every sequence of at most
    [MAX_FLOW_RULES] = 10 calls of [flow_table_add] returns 0 at each call
    and leaves [flow_count] and the number of active slots equal to the
    number of calls, the slots holding the rules in insertion order; and a
    call made when [flow_count] is 10 returns -1 and gives back the very
    state it was given (table, count and statistics), logging only the
    warning. *)
Theorem flow_table_add_capacity :
  (forall (s0 : agent) (rules : list (Z * Z * Z * Z)),
     (length rules <= Z.to_nat MAX_FLOW_RULES)%nat ->
     let r := add_all rules (flow_table_clear s0).1 in
     r.1 = replicate (length rules) 0 /\
     flow_count r.2 = Z.of_nat (length rules) /\
     count_active (flow_table r.2) = length rules /\
     flow_table r.2 =
       (new_rule <$> rules) ++
       replicate (Z.to_nat MAX_FLOW_RULES - length rules) zero_rule) /\
  (forall (src dst act nh : Z) (s : agent),
     flow_count s = MAX_FLOW_RULES ->
     flow_table_add src dst act nh s = (-1, s, [Warn_flow_table_full])).
Proof.
  split.
  - intros s0 rules Hlen.
    destruct (add_all_spec rules (flow_table_clear s0).1 (wf_clear s0))
      as (Hr & Hn & Ht & _).
    { simpl. unfold MAX_FLOW_RULES in *. lia. }
    unfold flow_table_clear in *. cbn [fst flow_count flow_table] in *.
    change (Z.to_nat 0) with 0%nat in Ht.
    rewrite take_0, Nat.add_0_l, drop_replicate in Ht. simpl app in Ht.
    cbv zeta. split; [exact Hr|]. split; [lia|]. split; [|exact Ht].
    rewrite Ht, count_active_app, count_active_new, count_active_zero. lia.
  - intros src dst act nh s Hc. apply add_full. lia.
Qed.

Lemma flow_table_add_capacity_witness :
  let rules := [(1, 2, 1, 3); (1, 2, 0, 4); (5, 6, 2, 7)] in
  let full := (add_all (replicate 10 (8, 9, 1, 10)) init_agent).2 in
  ((add_all rules init_agent).1 = [0; 0; 0] /\
   flow_count (add_all rules init_agent).2 = 3) /\
  flow_table_add 1 2 1 3 full = (-1, full, [Warn_flow_table_full]).
Proof.
  split.
  - destruct (proj1 flow_table_add_capacity init_agent
                [(1, 2, 1, 3); (1, 2, 0, 4); (5, 6, 2, 7)])
      as (H1 & H2 & _).
    + vm_compute. lia.
    + split; [exact H1 | exact H2].
  - apply (proj2 flow_table_add_capacity). reflexivity.
Defined.

(** ** Rules that answer, rules that are shadowed *)

Lemma lookup_Some_slot (src dst : Z) (s : agent) (i : nat) :
  flow_table_lookup src dst s = Some i ->
  exists r, flow_table s !! i = Some r /\ rule_matches src dst r = true.
Proof.
  unfold flow_table_lookup. intros H.
  apply scan_Some in H as (_ & r & Hr & Hm & _). eauto.
Qed.

Lemma holds_rule_process (i : nat) (src dst act nh : Z) (data : list byte)
    (len : Z) (s : agent) :
  wf s -> Z.of_nat i < flow_count s -> holds_rule s i src dst act nh ->
  holds_rule (process_wise_packet data len s).1 i src dst act nh.
Proof.
  intros Hwf Hi [c Hc]. unfold holds_rule.
  destruct (slot_process i data len s Hwf Hi) as [E|(_ & _ & _ & E)];
    rewrite E, Hc; eexists; reflexivity.
Qed.

(** A slot behind the one that answers its key is never counted. *)
Lemma shadowed_process (i j : nat) (r : flow_rule_t) (data : list byte)
    (len : Z) (s : agent) :
  wf s -> flow_table_lookup (src_addr r) (dst_addr r) s = Some i ->
  i <> j -> Z.of_nat j < flow_count s -> flow_table s !! j = Some r ->
  flow_table (process_wise_packet data len s).1 !! j = Some r.
Proof.
  intros Hwf Hi Hij Hj Hr.
  destruct (slot_process j data len s Hwf Hj) as [E|(_ & _ & Hl & _)].
  - rewrite E. exact Hr.
  - exfalso. destruct (lookup_Some_slot _ _ _ _ Hl) as (r' & Hr' & Hm).
    rewrite Hr in Hr'. injection Hr' as <-.
    apply rule_matches_true in Hm as (_ & Hs & Hd).
    rewrite <- Hs, <- Hd in Hl. congruence.
Qed.

Lemma shadowed_process_all (i j : nat) (r : flow_rule_t) (act nh : Z)
    (pkts : list (list byte * Z)) (s : agent) :
  wf s -> flow_table_lookup (src_addr r) (dst_addr r) s = Some i ->
  holds_rule s i (src_addr r) (dst_addr r) act nh ->
  i <> j -> Z.of_nat j < flow_count s -> flow_table s !! j = Some r ->
  let s' := process_all pkts s in
  flow_table_lookup (src_addr r) (dst_addr r) s' = Some i /\
  holds_rule s' i (src_addr r) (dst_addr r) act nh /\
  flow_table s' !! j = Some r.
Proof.
  revert s. induction pkts as [|[data len] rest IH];
    intros s Hwf Hi Hh Hij Hj Hr; simpl.
  - auto.
  - pose proof (count_process data len s Hwf) as Hc.
    apply IH.
    + apply wf_process, Hwf.
    + apply lookup_process; assumption.
    + apply holds_rule_process; auto. apply lookup_lt in Hi. lia.
    + assumption.
    + lia.
    + eapply shadowed_process; eauto.
Qed.

Lemma lookup_first_match (src dst : Z) (s : agent) :
  wf s -> first_match src dst s (flow_table_lookup src dst s).
Proof.
  intros [Hl Hc]. unfold flow_table_lookup.
  destruct (flow_table_scan (flow_table s) src dst 0 (Z.to_nat (flow_count s)))
    as [i|] eqn:E; simpl.
  - apply scan_Some in E as (Hi & r & Hr & Hm & Hlow). split; [lia|].
    exists r. split; [exact Hr|]. split; [apply rule_matches_true, Hm|].
    intros j r' Hj Hr' Hm'. apply rule_matches_true in Hm'.
    rewrite (Hlow j r') in Hm' by (auto; lia). discriminate.
  - intros j r' Hj Hr' Hm'. apply rule_matches_true in Hm'.
    assert (Hin : (0 + Z.to_nat (flow_count s) <= length (flow_table s))%nat).
    { rewrite Hl. unfold MAX_FLOW_RULES in *. lia. }
    rewrite (scan_None src dst _ _ 0 Hin E j r') in Hm' by (auto; lia).
    discriminate.
Qed.

(** C2. [flow_table_lookup] returns the lowest-index slot in use whose rule
    is active and matches both addresses; and once R1 and then R2 have been
    inserted with the same (source, destination) into a table with room for
    both and no rule for that key yet, every later lookup of the key, after
    any run of received packets, returns R1's slot, which is not R2's and
    still holds R1, while R2's slot still holds R2 with [packet_count] 0. *)
Theorem flow_table_lookup_first_match_shadowing :
  (forall (src dst : Z) (s : agent),
     wf s -> first_match src dst s (flow_table_lookup src dst s)) /\
  (forall (src dst a1 n1 a2 n2 : Z) (s : agent) (pkts : list (list byte * Z)),
     wf s -> flow_count s + 2 <= MAX_FLOW_RULES ->
     flow_table_lookup src dst s = None ->
     let i1 := Z.to_nat (flow_count s) in
     let i2 := S i1 in
     let s' := process_all pkts
                 (add_state src dst a2 n2 (add_state src dst a1 n1 s)) in
     flow_table_lookup src dst s' = Some i1 /\
     holds_rule s' i1 src dst a1 n1 /\
     flow_table s' !! i2 = Some (mk_flow_rule 1 src dst a2 n2 0)).
Proof.
  split; [exact lookup_first_match|].
  intros src dst a1 n1 a2 n2 s pkts Hwf Hroom Hnone i1 i2.
  pose proof (proj2 Hwf) as Hc0.
  set (s1 := add_state src dst a1 n1 s).
  set (s2 := add_state src dst a2 n2 s1).
  assert (Hwf1 : wf s1) by apply wf_add, Hwf.
  assert (Hc1 : flow_count s1 = flow_count s + 1).
  { subst s1. unfold add_state. rewrite add_room by (auto; lia). reflexivity. }
  assert (Hl1 : flow_table_lookup src dst s1 = Some i1).
  { subst s1. rewrite lookup_add, Hnone by (auto; lia).
    unfold rule_matches. simpl. rewrite !Z.eqb_refl. reflexivity. }
  assert (Hh1 : holds_rule s1 i1 src dst a1 n1).
  { exists 0. subst s1. unfold add_state. rewrite add_room by (auto; lia).
    simpl. apply list_lookup_insert_eq. destruct Hwf as [Hl Hc].
    rewrite Hl. unfold MAX_FLOW_RULES in *. lia. }
  assert (Hwf2 : wf s2) by apply wf_add, Hwf1.
  assert (Ht2 : flow_table s2 = <[i2 := mk_flow_rule 1 src dst a2 n2 0]> (flow_table s1)
                /\ flow_count s2 = flow_count s + 2).
  { subst s2. unfold add_state. rewrite add_room by (auto; lia). simpl.
    rewrite Hc1. split; [|lia]. f_equal. subst i2 i1. lia. }
  destruct Ht2 as [Ht2 Hc2].
  apply (shadowed_process_all i1 i2 (mk_flow_rule 1 src dst a2 n2 0) a1 n1 pkts s2);
    simpl; auto.
  - subst s2. rewrite lookup_add, Hl1 by (auto; lia). reflexivity.
  - destruct Hh1 as [c Hc]. exists c. rewrite Ht2.
    rewrite list_lookup_insert_ne by (subst i2; lia). exact Hc.
  - subst i2 i1. lia.
  - rewrite Ht2. apply list_lookup_insert_eq. destruct Hwf1 as [Hl _].
    rewrite Hl. subst i2 i1. unfold MAX_FLOW_RULES in *. lia.
Qed.

Lemma flow_table_lookup_first_match_shadowing_witness :
  let pkt := ([x07; x01; x00; x02; x00; x01; x40], 7) in
  let s' := process_all [pkt; pkt; pkt]
              (add_state 1 2 0 4 (add_state 1 2 1 3 init_agent)) in
  first_match 1 2 init_agent (flow_table_lookup 1 2 init_agent) /\
  flow_table_lookup 1 2 s' = Some 0%nat /\
  holds_rule s' 0 1 2 1 3 /\
  flow_table s' !! 1%nat = Some (mk_flow_rule 1 1 2 0 4 0).
Proof.
  split.
  - apply (proj1 flow_table_lookup_first_match_shadowing). exact wf_init.
  - apply (proj2 flow_table_lookup_first_match_shadowing 1 2 1 3 0 4 init_agent).
    + exact wf_init.
    + vm_compute. discriminate.
    + reflexivity.
Defined.

(** ** DATA packets that hit a rule *)

Lemma process_data_hit (data : list byte) (len : Z) (s : agent) (i : nat)
    (r : flow_rule_t) :
  7 <= len -> hdr_type data = WISE_TYPE_DATA ->
  flow_table_lookup (hdr_src data) (hdr_dst data) s = Some i ->
  flow_table s !! i = Some r ->
  process_wise_packet data len s =
  (mk_agent (alter hit i (flow_table s)) (flow_count s)
     (mk_stats (packets_sent (stats s))
               (wrap32 (packets_received (stats s) + 1))
               (wrap32 (packets_forwarded (stats s) + 1))
               (packets_dropped (stats s))),
   [Info_rx (hdr_type data) (hdr_src data) (hdr_dst data) (hdr_ttl data);
    Info_forwarding (next_hop r)]) /\
  alter hit i (flow_table s) !! i = Some (hit r).
Proof.
  intros Hlen Ht Hl Hr.
  assert (Ha : alter hit i (flow_table s) !! i = Some (hit r)).
  { rewrite list_lookup_alter. destruct (decide (i = i)); [|lia].
    rewrite Hr. reflexivity. }
  split; [|exact Ha].
  rewrite process_long by assumption. unfold wise_switch.
  rewrite Ht. change (WISE_TYPE_DATA =? WISE_TYPE_FLOW_RULE) with false.
  change (WISE_TYPE_DATA =? WISE_TYPE_DATA) with true. cbv iota.
  change (flow_table_lookup (hdr_src data) (hdr_dst data) (incr_received s))
    with (flow_table_lookup (hdr_src data) (hdr_dst data) s).
  rewrite Hl. cbn [fst snd]. unfold incr_forwarded, incr_packet_count, incr_received.
  cbn [flow_table flow_count stats packets_sent packets_received
       packets_forwarded packets_dropped]. rewrite Ha. reflexivity.
Qed.

Lemma process_data_miss (data : list byte) (len : Z) (s : agent) :
  7 <= len -> hdr_type data = WISE_TYPE_DATA ->
  flow_table_lookup (hdr_src data) (hdr_dst data) s = None ->
  process_wise_packet data len s =
  (mk_agent (flow_table s) (flow_count s)
     (mk_stats (packets_sent (stats s))
               (wrap32 (packets_received (stats s) + 1))
               (packets_forwarded (stats s))
               (wrap32 (packets_dropped (stats s) + 1))),
   [Info_rx (hdr_type data) (hdr_src data) (hdr_dst data) (hdr_ttl data);
    Warn_no_flow_rule]).
Proof.
  intros Hlen Ht Hl.
  rewrite process_long by assumption. unfold wise_switch.
  rewrite Ht. change (WISE_TYPE_DATA =? WISE_TYPE_FLOW_RULE) with false.
  change (WISE_TYPE_DATA =? WISE_TYPE_DATA) with true. cbv iota.
  change (flow_table_lookup (hdr_src data) (hdr_dst data) (incr_received s))
    with (flow_table_lookup (hdr_src data) (hdr_dst data) s).
  rewrite Hl. reflexivity.
Qed.

Lemma wrap32_succ (c : Z) : wrap32 (wrap32 c + 1) = wrap32 (c + 1).
Proof. unfold wrap32. rewrite Zplus_mod_idemp_l. reflexivity. Qed.

Lemma is_data_forb_true (src dst : Z) (p : list byte * Z) :
  is_data_forb src dst p = true <-> is_data_for src dst p.
Proof.
  unfold is_data_forb, is_data_for.
  rewrite !andb_true_iff, Z.leb_le, !Z.eqb_eq. tauto.
Qed.

(** When no slot in use holds an active rule for a key, the lookup of the
    key returns nothing. *)
Lemma lookup_no_rule (src dst : Z) (s : agent) :
  (forall (j : nat) (r : flow_rule_t),
     Z.of_nat j < flow_count s -> flow_table s !! j = Some r ->
     ~ (active r <> 0 /\ src_addr r = src /\ dst_addr r = dst)) ->
  flow_table_lookup src dst s = None.
Proof.
  intros H. destruct (flow_table_lookup src dst s) as [i|] eqn:E; [|reflexivity].
  pose proof (lookup_lt _ _ _ _ E) as Hi.
  destruct (lookup_Some_slot _ _ _ _ E) as (r & Hr & Hm).
  apply rule_matches_true in Hm. destruct (H i r Hi Hr Hm).
Qed.

(** Any run of packets, for the rule in slot [i] that answers its key: the
    slot still answers it, and has counted one hit for each DATA packet of
    the run that asks for the key and none for any other packet. *)
Lemma hits_counted_among (src dst act nh c : Z) (i : nat)
    (pkts : list (list byte * Z)) (s : agent) :
  wf s -> flow_table_lookup src dst s = Some i ->
  flow_table s !! i = Some (mk_flow_rule 1 src dst act nh (wrap32 c)) ->
  let s' := process_all pkts s in
  flow_table_lookup src dst s' = Some i /\
  flow_table s' !! i =
    Some (mk_flow_rule 1 src dst act nh (wrap32 (c + lookups_of src dst pkts))).
Proof.
  revert s c. induction pkts as [|[data len] rest IH]; intros s c Hwf Hl Hr.
  - simpl. unfold lookups_of. simpl. rewrite Z.add_0_r. auto.
  - cbn [process_all]. cbv zeta.
    pose proof (wf_process data len s Hwf) as Hwf'.
    pose proof (lookup_process src dst i data len s Hwf Hl) as Hl'.
    unfold lookups_of. cbn [List.filter].
    destruct (is_data_forb src dst (data, len)) eqn:Eb.
    + apply is_data_forb_true in Eb as (Hlen & Ht & Hs & Hd).
      cbn [fst snd] in Hlen, Ht, Hs, Hd. subst src dst.
      destruct (process_data_hit data len s i _ Hlen Ht Hl Hr) as [Hp Ha].
      replace (c + Z.of_nat (length ((data, len) :: List.filter
                 (is_data_forb (hdr_src data) (hdr_dst data)) rest)))
        with ((c + 1) + lookups_of (hdr_src data) (hdr_dst data) rest)
        by (unfold lookups_of; simpl length; lia).
      apply IH; auto.
      rewrite Hp. cbn [fst flow_table]. rewrite Ha. unfold hit. simpl.
      rewrite wrap32_succ. reflexivity.
    + apply IH; auto.
      destruct (slot_process i data len s Hwf (lookup_lt _ _ _ _ Hl))
        as [E|(Hlen & Ht & Hli & _)]; [rewrite E; exact Hr|].
      exfalso. destruct (lookup_Some_slot _ _ _ _ Hli) as (r & Hr' & Hm).
      rewrite Hr in Hr'. injection Hr' as <-.
      apply rule_matches_true in Hm as (_ & Hs & Hd). simpl in Hs, Hd.
      assert (Ht' : is_data_forb src dst (data, len) = true).
      { apply is_data_forb_true. repeat split; cbn [fst snd]; auto. }
      congruence.
Qed.

(** The statement without a condition on the table fails.  From the start
    state, rule R' = (1 -> 2, next hop 5) and then rule R = (1 -> 2, next hop
    9) are inserted, both successfully: the lookup of R's key returns the slot
    of R', and after a DATA packet 1 -> 2 the hit is on R' and R's
    [packet_count] is still 0.  And an insertion into a full table is
    refused, so the lookup of R's key returns nothing. *)
Lemma inserted_rule_not_returned :
  let s1 := add_state 1 2 1 9 (add_state 1 2 1 5 init_agent) in
  let s2 := (process_wise_packet [x07; x01; x00; x02; x00; x01; x40] 7 s1).1 in
  let full := (add_all (replicate 10 (8, 9, 1, 10)) init_agent).2 in
  (add_ret 1 2 1 9 (add_state 1 2 1 5 init_agent) = 0 /\
   flow_table s1 !! 1%nat = Some (mk_flow_rule 1 1 2 1 9 0) /\
   flow_table_lookup 1 2 s1 = Some 0%nat /\
   flow_table s2 !! 0%nat = Some (mk_flow_rule 1 1 2 1 5 1) /\
   flow_table s2 !! 1%nat = Some (mk_flow_rule 1 1 2 1 9 0)) /\
  flow_table_lookup 1 2 (add_state 1 2 1 9 full) = None /\
  ~ (forall (src dst act nh : Z) (s : agent),
       wf s ->
       exists i : nat,
         flow_table_lookup src dst (add_state src dst act nh s) = Some i /\
         flow_table (add_state src dst act nh s) !! i
         = Some (mk_flow_rule 1 src dst act nh 0)).
Proof.
  intros s1 s2 full. split; [repeat split|]. split; [reflexivity|].
  intros H.
  destruct (H 1 2 1 9 (add_state 1 2 1 5 init_agent)
              (wf_add 1 2 1 5 init_agent wf_init)) as (i & Hl & Hr).
  vm_compute in Hl. injection Hl as <-. vm_compute in Hr. discriminate.
Qed.

(** C3 (amended). On an empty table ([flow_count] = 0) the lookup returns
    nothing, whatever the key.  After rule R is inserted into a table that
    has a free slot and in which no slot in use holds an active rule with R's
    (source, destination) - the empty table in particular - the insertion
    succeeds, and after any run of received packets the lookup of R's key
    returns R's slot, which holds R with a [packet_count] equal to the number
    of DATA packets of the run that asked for R's key: each such lookup adds
    exactly one (as a [uint32_t], so modulo 2^32) and nothing else adds
    any. *)
Theorem lookup_empty_and_hit_count :
  (forall (src dst : Z) (s : agent),
     flow_count s = 0 -> flow_table_lookup src dst s = None) /\
  (forall (src dst act nh : Z) (s : agent) (pkts : list (list byte * Z)),
     wf s -> flow_count s < MAX_FLOW_RULES ->
     (forall (j : nat) (r : flow_rule_t),
        Z.of_nat j < flow_count s -> flow_table s !! j = Some r ->
        ~ (active r <> 0 /\ src_addr r = src /\ dst_addr r = dst)) ->
     let i := Z.to_nat (flow_count s) in
     let s' := process_all pkts (add_state src dst act nh s) in
     add_ret src dst act nh s = 0 /\
     flow_table_lookup src dst s' = Some i /\
     flow_table s' !! i =
       Some (mk_flow_rule 1 src dst act nh
               (lookups_of src dst pkts mod 2 ^ 32))).
Proof.
  split; [exact lookup_empty|].
  intros src dst act nh s pkts Hwf Hroom Hnone i s'.
  split; [unfold add_ret; rewrite add_room by assumption; reflexivity|].
  apply (hits_counted_among src dst act nh 0 i pkts (add_state src dst act nh s)).
  - apply wf_add, Hwf.
  - rewrite lookup_add, (lookup_no_rule src dst s Hnone) by assumption.
    unfold rule_matches. simpl. rewrite !Z.eqb_refl. reflexivity.
  - unfold add_state. rewrite add_room by assumption. simpl.
    apply list_lookup_insert_eq. destruct Hwf as [Hl Hc].
    rewrite Hl. unfold MAX_FLOW_RULES in *. lia.
Qed.

(** R = (1 -> 2) inserted behind a rule for 5 -> 6; of the five packets
    received, two are DATA packets 1 -> 2. *)
Lemma lookup_empty_and_hit_count_witness :
  let s := add_state 5 6 1 7 init_agent in
  let pkts := [([x07; x01; x00; x02; x00; x01; x40], 7);
               ([x07; x01; x00; x06; x00; x05; x40], 7);
               ([x07; x10; x00; x02; x00; x01; x40], 7);
               ([x07; x01; x00; x02; x00; x01; x40], 7);
               ([x03; x01; x00], 3)] in
  let s' := process_all pkts (add_state 1 2 1 3 s) in
  flow_table_lookup 1 2 init_agent = None /\
  add_ret 1 2 1 3 s = 0 /\
  flow_table_lookup 1 2 s' = Some 1%nat /\
  flow_table s' !! 1%nat = Some (mk_flow_rule 1 1 2 1 3 2).
Proof.
  intros s pkts s'. split.
  - apply (proj1 lookup_empty_and_hit_count). reflexivity.
  - apply (proj2 lookup_empty_and_hit_count 1 2 1 3 s pkts).
    + apply wf_add, wf_init.
    + reflexivity.
    + intros j r Hj Hr (_ & Hs & _).
      assert (Hc : flow_count s = 1) by reflexivity. rewrite Hc in Hj.
      destruct j as [|j]; [|lia].
      vm_compute in Hr. injection Hr as <-. discriminate.
Defined.

(** ** The length check and the header *)

(** C4. With a length below 7 [process_wise_packet] returns at once: the
    state it gives back is the one it was given (flow table, [flow_count]
    and the four counters, [packets_received] included), the trace holds the
    warning alone (no header fields were decoded) and the result does not
    depend on the bytes of the buffer.  A buffer of exactly 7 bytes passes
    the check: the header fields are decoded from its bytes (big-endian
    addresses), the [switch] runs on the state with [packets_received]
    counted, nothing after the header is read (bytes appended to the buffer
    change nothing), and a FLOW_RULE tag installs no rule. *)
Theorem short_buffer_rejected_header_accepted :
  (forall (data : list byte) (len : Z) (s : agent),
     len < 7 ->
     process_wise_packet data len s = (s, [Warn_packet_too_short len])) /\
  (forall (b0 b1 b2 b3 b4 b5 b6 : byte) (s : agent),
     let data := [b0; b1; b2; b3; b4; b5; b6] in
     let rx := Info_rx (Z_of_byte b1)
                       (256 * Z_of_byte b4 + Z_of_byte b5)
                       (256 * Z_of_byte b2 + Z_of_byte b3)
                       (Z_of_byte b6) in
     process_wise_packet data 7 s =
       ((wise_switch data 7 (incr_received s)).1,
        rx :: (wise_switch data 7 (incr_received s)).2) /\
     (Z_of_byte b1 = WISE_TYPE_FLOW_RULE ->
      process_wise_packet data 7 s = (incr_received s, [rx])) /\
     (forall extra : list byte,
        process_wise_packet (data ++ extra) 7 s = process_wise_packet data 7 s)).
Proof.
  split; [exact process_short|].
  intros b0 b1 b2 b3 b4 b5 b6 s data rx.
  assert (Hrx : Info_rx (hdr_type data) (hdr_src data) (hdr_dst data)
                        (hdr_ttl data) = rx).
  { subst rx data. unfold hdr_type, hdr_src, hdr_dst, hdr_ttl, byte_at.
    cbn [nth]. rewrite !be16_value by apply Z_of_byte_range. reflexivity. }
  assert (Hp : process_wise_packet data 7 s =
               ((wise_switch data 7 (incr_received s)).1,
                rx :: (wise_switch data 7 (incr_received s)).2)).
  { rewrite process_long by lia. rewrite Hrx. reflexivity. }
  split; [exact Hp|]. split.
  - intros Hf. rewrite Hp. unfold wise_switch.
    change (hdr_type data) with (Z_of_byte b1). rewrite Hf. reflexivity.
  - intros extra. reflexivity.
Qed.

Lemma short_buffer_rejected_header_accepted_witness :
  process_wise_packet [x06; x01; x00; x02; x00; x01] 6 init_agent =
  (init_agent, [Warn_packet_too_short 6]) /\
  process_wise_packet [x07; x12; x00; x02; x00; x01; x40] 7 init_agent =
  (incr_received init_agent, [Info_rx 18 1 2 64]).
Proof.
  split.
  - apply (proj1 short_buffer_rejected_header_accepted). reflexivity.
  - apply (proj1 (proj2 (proj2 short_buffer_rejected_header_accepted
                           x07 x12 x00 x02 x00 x01 x40 init_agent))).
    reflexivity.
Defined.

(** ** DATA packets without a rule *)

(** C5. A DATA packet (header complete) whose (source, destination) no
    active rule in use matches: the trace is the received header followed by
    the no-rule warning, [packets_received] and [packets_dropped] are each
    incremented by one (as [uint32_t]), and the flow table (every rule and
    its [packet_count]), [flow_count], [packets_sent] and
    [packets_forwarded] are the ones before the call. *)
Theorem data_miss_counts_drop (data : list byte) (len : Z) (s : agent) :
  7 <= len -> hdr_type data = WISE_TYPE_DATA ->
  flow_table_lookup (hdr_src data) (hdr_dst data) s = None ->
  process_wise_packet data len s =
  (mk_agent (flow_table s) (flow_count s)
     (mk_stats (packets_sent (stats s))
               ((packets_received (stats s) + 1) mod 2 ^ 32)
               (packets_forwarded (stats s))
               ((packets_dropped (stats s) + 1) mod 2 ^ 32)),
   [Info_rx (hdr_type data) (hdr_src data) (hdr_dst data) (hdr_ttl data);
    Warn_no_flow_rule]).
Proof. exact (process_data_miss data len s). Qed.

Lemma data_miss_counts_drop_witness :
  process_wise_packet [x07; x01; x00; x02; x00; x01; x40] 7
    (add_state 5 6 1 7 init_agent) =
  (mk_agent (flow_table (add_state 5 6 1 7 init_agent)) 1 (mk_stats 0 1 0 1),
   [Info_rx 1 1 2 64; Warn_no_flow_rule]).
Proof.
  apply (data_miss_counts_drop [x07; x01; x00; x02; x00; x01; x40] 7
           (add_state 5 6 1 7 init_agent)).
  - vm_compute. discriminate.
  - reflexivity.
  - reflexivity.
Defined.

(** ** Counting received packets *)

Lemma add_stats (src dst act nh : Z) (s : agent) :
  stats (flow_table_add src dst act nh s).1.2 = stats s.
Proof.
  unfold flow_table_add.
  destruct (MAX_FLOW_RULES <=? flow_count s); reflexivity.
Qed.

(** No branch of the [switch] writes [packets_received]. *)
Lemma switch_received (data : list byte) (len : Z) (t : agent) :
  packets_received (stats (wise_switch data len t).1)
  = packets_received (stats t).
Proof.
  destruct (wise_switch_cases data len t); try reflexivity.
  simpl. rewrite add_stats. reflexivity.
Qed.

(** The statement with "every invocation" fails: a call with fewer than 7
    bytes returns before the counter is touched.  Here a 3-byte buffer
    leaves [packets_received] at 0. *)
Lemma short_packet_not_counted :
  packets_received
    (stats (process_wise_packet [x03; x01; x00] 3 init_agent).1) = 0 /\
  ~ (forall (data : list byte) (len : Z) (s : agent),
       packets_received (stats (process_wise_packet data len s).1)
       = (packets_received (stats s) + 1) mod 2 ^ 32).
Proof.
  split; [reflexivity|].
  intros H. specialize (H [x03; x01; x00] 3 init_agent).
  vm_compute in H. discriminate.
Qed.

(** C9 (amended). Every call of [process_wise_packet] with at least 7 bytes
    increments [packets_received] exactly once (as a [uint32_t]), before the
    [switch] on the type tag: the result is the [switch] run on the state
    with the counter already incremented, and the [switch] leaves the
    counter alone whatever the tag.  A call with fewer than 7 bytes leaves
    the counter as it was. *)
Theorem received_counted_once_before_switch (data : list byte) (len : Z)
    (s : agent) :
  (7 <= len ->
   process_wise_packet data len s =
     ((wise_switch data len (incr_received s)).1,
      Info_rx (hdr_type data) (hdr_src data) (hdr_dst data) (hdr_ttl data)
        :: (wise_switch data len (incr_received s)).2) /\
   packets_received (stats (incr_received s))
     = (packets_received (stats s) + 1) mod 2 ^ 32 /\
   (forall t : agent,
      packets_received (stats (wise_switch data len t).1)
      = packets_received (stats t)) /\
   packets_received (stats (process_wise_packet data len s).1)
     = (packets_received (stats s) + 1) mod 2 ^ 32) /\
  (len < 7 ->
   packets_received (stats (process_wise_packet data len s).1)
     = packets_received (stats s)).
Proof.
  split.
  - intros Hlen. split; [apply process_long, Hlen|].
    split; [reflexivity|]. split; [apply switch_received|].
    rewrite process_long by assumption. cbn [fst].
    rewrite switch_received. reflexivity.
  - intros Hlen. rewrite process_short by assumption. reflexivity.
Qed.

Lemma received_counted_once_before_switch_witness :
  packets_received
    (stats (process_wise_packet [x07; x99; x00; x02; x00; x01; x40] 7
              init_agent).1) = 1 /\
  packets_received
    (stats (process_wise_packet [x03; x01; x00] 3 init_agent).1) = 0.
Proof.
  split.
  - apply (proj1 (received_counted_once_before_switch
                    [x07; x99; x00; x02; x00; x01; x40] 7 init_agent)).
    vm_compute. discriminate.
  - apply (proj2 (received_counted_once_before_switch
                    [x03; x01; x00] 3 init_agent)).
    reflexivity.
Defined.

(** ** The action field *)

Lemma forget_forget (s : agent) :
  forget_actions (forget_actions s) = forget_actions s.
Proof.
  unfold forget_actions. simpl. f_equal.
  rewrite <- list_fmap_compose. apply list_fmap_ext. intros _ r _. reflexivity.
Qed.

Lemma lookup_forget (src dst : Z) (s : agent) :
  flow_table_lookup src dst (forget_actions s) = flow_table_lookup src dst s.
Proof.
  unfold flow_table_lookup. simpl. apply scan_ext. intros j _.
  rewrite list_lookup_fmap. destruct (flow_table s !! j); reflexivity.
Qed.

Lemma add_forget (src dst act nh : Z) (s : agent) :
  (flow_table_add src dst act nh (forget_actions s)).1.1
    = (flow_table_add src dst act nh s).1.1 /\
  forget_actions (flow_table_add src dst act nh (forget_actions s)).1.2
    = forget_actions (flow_table_add src dst act nh s).1.2 /\
  (flow_table_add src dst act nh (forget_actions s)).2
    = (flow_table_add src dst act nh s).2.
Proof.
  unfold flow_table_add. cbn [forget_actions flow_count].
  destruct (MAX_FLOW_RULES <=? flow_count s); cbn [fst snd].
  - repeat split. apply forget_forget.
  - repeat split. unfold forget_actions. cbn [flow_table flow_count stats].
    f_equal. rewrite !list_fmap_insert. f_equal.
    rewrite <- list_fmap_compose. apply list_fmap_ext. intros _ r _. reflexivity.
Qed.

Lemma hit_forget (i : nat) (tbl : list flow_rule_t) :
  set_action 0 <$> alter hit i (set_action 0 <$> tbl)
  = set_action 0 <$> alter hit i tbl.
Proof.
  apply list_eq. intros j.
  rewrite !list_lookup_fmap, !list_lookup_alter.
  destruct (decide (i = j)) as [->|]; rewrite !list_lookup_fmap;
    destruct (tbl !! j); reflexivity.
Qed.

Lemma switch_forget (data : list byte) (len : Z) (s : agent) :
  (wise_switch data len (forget_actions s)).2 = (wise_switch data len s).2 /\
  forget_actions (wise_switch data len (forget_actions s)).1
    = forget_actions (wise_switch data len s).1.
Proof.
  unfold wise_switch.
  destruct (hdr_type data =? WISE_TYPE_FLOW_RULE).
  - destruct (14 <=? len); [|split; [reflexivity|apply forget_forget]].
    destruct (add_forget (hdr_src data) (hdr_dst data) (byte_at data 7)
                (be16 (byte_at data 8) (byte_at data 9)) s) as (_ & Hs & Hl).
    destruct (flow_table_add _ _ _ _ (forget_actions s)) as [[r1 s1] l1].
    destruct (flow_table_add _ _ _ _ s) as [[r2 s2] l2].
    split; [exact Hl|exact Hs].
  - destruct (hdr_type data =? WISE_TYPE_DATA).
    + rewrite lookup_forget.
      destruct (flow_table_lookup (hdr_src data) (hdr_dst data) s) as [i|].
      * cbn [fst snd incr_forwarded incr_packet_count forget_actions
             flow_table flow_count stats].
        split.
        -- rewrite !list_lookup_alter, list_lookup_fmap.
           destruct (decide (i = i)); [|lia].
           destruct (flow_table s !! i); reflexivity.
        -- unfold forget_actions, incr_forwarded, incr_packet_count.
           cbn [flow_table flow_count stats]. rewrite hit_forget. reflexivity.
      * split; [reflexivity|]. apply (forget_forget (incr_dropped s)).
    + destruct (hdr_type data =? WISE_TYPE_CONFIG);
        (split; [reflexivity|apply forget_forget]).
Qed.

Lemma process_forget (data : list byte) (len : Z) (s : agent) :
  (process_wise_packet data len (forget_actions s)).2
    = (process_wise_packet data len s).2 /\
  forget_actions (process_wise_packet data len (forget_actions s)).1
    = forget_actions (process_wise_packet data len s).1.
Proof.
  destruct (Z.lt_ge_cases len 7).
  - rewrite !process_short by assumption.
    split; [reflexivity|apply forget_forget].
  - rewrite !process_long by assumption. cbn [fst snd].
    destruct (switch_forget data len (incr_received s)) as [Hl Hs].
    change (incr_received (forget_actions s))
      with (forget_actions (incr_received s)).
    rewrite Hl, Hs. split; reflexivity.
Qed.

(** C10. A DATA packet whose (source, destination) is answered by the rule
    [r] in slot [i] is reported as forwarded to [next_hop r], with
    [packets_forwarded] and the rule's [packet_count] incremented, and this
    for every value of [action r].  [flow_table_add] stores the action it is
    given, and nothing reads it back: the lookup, the trace of
    [process_wise_packet] and its effect on everything but the [action]
    fields are the same on two states that differ in [action] fields only. *)
Theorem matching_rule_forwards_whatever_action :
  (forall (data : list byte) (len : Z) (s : agent) (i : nat) (r : flow_rule_t),
     7 <= len -> hdr_type data = WISE_TYPE_DATA ->
     flow_table_lookup (hdr_src data) (hdr_dst data) s = Some i ->
     flow_table s !! i = Some r ->
     process_wise_packet data len s =
       (mk_agent (alter hit i (flow_table s)) (flow_count s)
          (mk_stats (packets_sent (stats s))
                    ((packets_received (stats s) + 1) mod 2 ^ 32)
                    ((packets_forwarded (stats s) + 1) mod 2 ^ 32)
                    (packets_dropped (stats s))),
        [Info_rx (hdr_type data) (hdr_src data) (hdr_dst data) (hdr_ttl data);
         Info_forwarding (next_hop r)]) /\
     alter hit i (flow_table s) !! i =
       Some (mk_flow_rule (active r) (src_addr r) (dst_addr r) (action r)
               (next_hop r) ((packet_count r + 1) mod 2 ^ 32))) /\
  (forall (src dst act nh : Z) (s : agent),
     wf s -> flow_count s < MAX_FLOW_RULES ->
     flow_table (add_state src dst act nh s) !! Z.to_nat (flow_count s)
     = Some (mk_flow_rule 1 src dst act nh 0)) /\
  (forall (s t : agent),
     forget_actions s = forget_actions t ->
     (forall src dst : Z,
        flow_table_lookup src dst s = flow_table_lookup src dst t) /\
     (forall (data : list byte) (len : Z),
        (process_wise_packet data len s).2 = (process_wise_packet data len t).2 /\
        forget_actions (process_wise_packet data len s).1
        = forget_actions (process_wise_packet data len t).1)).
Proof.
  split; [|split].
  - intros data len s i r Hlen Ht Hl Hr.
    exact (process_data_hit data len s i r Hlen Ht Hl Hr).
  - intros src dst act nh s Hwf Hroom. unfold add_state.
    rewrite add_room by assumption. simpl.
    apply list_lookup_insert_eq. destruct Hwf as [Hl Hc].
    rewrite Hl. unfold MAX_FLOW_RULES in *. lia.
  - intros s t Hst. split.
    + intros src dst.
      rewrite <- (lookup_forget src dst s), <- (lookup_forget src dst t), Hst.
      reflexivity.
    + intros data len.
      destruct (process_forget data len s) as [Hl1 Hs1].
      destruct (process_forget data len t) as [Hl2 Hs2].
      rewrite <- Hl1, <- Hs1, <- Hl2, <- Hs2, Hst. split; reflexivity.
Qed.

(** A rule installed with action 0 (DROP) still has its DATA packets
    reported as forwarded to its next hop. *)
Lemma matching_rule_forwards_whatever_action_witness :
  let data := [x07; x01; x00; x02; x00; x01; x40] in
  let s := add_state 1 2 0 9 init_agent in
  (process_wise_packet data 7 s).2 = [Info_rx 1 1 2 64; Info_forwarding 9] /\
  flow_table s !! 0%nat = Some (mk_flow_rule 1 1 2 0 9 0) /\
  flow_table_lookup 1 2 s = flow_table_lookup 1 2 (add_state 1 2 1 9 init_agent).
Proof.
  split; [|split].
  - destruct (proj1 matching_rule_forwards_whatever_action
                [x07; x01; x00; x02; x00; x01; x40] 7
                (add_state 1 2 0 9 init_agent) 0%nat
                (mk_flow_rule 1 1 2 0 9 0)) as [Hp _].
    + vm_compute. discriminate.
    + reflexivity.
    + reflexivity.
    + reflexivity.
    + cbv zeta. rewrite Hp. reflexivity.
  - apply (proj1 (proj2 matching_rule_forwards_whatever_action) 1 2 0 9 init_agent).
    + exact wf_init.
    + reflexivity.
  - apply (proj2 (proj2 matching_rule_forwards_whatever_action)
             (add_state 1 2 0 9 init_agent) (add_state 1 2 1 9 init_agent)).
    reflexivity.
Defined.

(** ** FLOW_RULE packets *)

Lemma process_flow_rule (fr : list byte) (len : Z) (s : agent) :
  hdr_type fr = WISE_TYPE_FLOW_RULE -> 14 <= len ->
  (process_wise_packet fr len s).1 =
  add_state (hdr_src fr) (hdr_dst fr) (byte_at fr 7)
            (be16 (byte_at fr 8) (byte_at fr 9)) (incr_received s).
Proof.
  intros Ht Hlen. rewrite process_long by lia. cbn [fst].
  unfold wise_switch. rewrite Ht.
  change (WISE_TYPE_FLOW_RULE =? WISE_TYPE_FLOW_RULE) with true. cbv iota.
  destruct (Z.leb_spec 14 len); [|lia]. unfold add_state.
  destruct (flow_table_add (hdr_src fr) (hdr_dst fr) (byte_at fr 7)
              (be16 (byte_at fr 8) (byte_at fr 9)) (incr_received s))
    as [[r s'] lg].
  reflexivity.
Qed.

(** The slot that answers a key and the rule it holds outlive any run of
    packets. *)
Lemma pinned_process_all (src dst act nh : Z) (i : nat)
    (pkts : list (list byte * Z)) (s : agent) :
  wf s -> flow_table_lookup src dst s = Some i ->
  holds_rule s i src dst act nh ->
  let s' := process_all pkts s in
  wf s' /\ flow_table_lookup src dst s' = Some i /\
  holds_rule s' i src dst act nh.
Proof.
  revert s. induction pkts as [|[data len] rest IH]; intros s Hwf Hl Hh; simpl.
  - auto.
  - apply IH.
    + apply wf_process, Hwf.
    + apply lookup_process; assumption.
    + apply holds_rule_process; auto. apply lookup_lt in Hl. exact Hl.
Qed.

(** The statement without a condition on the table fails.  From the start
    state, a FLOW_RULE packet for 1 -> 2 with next hop 9 that arrives after
    one with next hop 5 is shadowed: the DATA packet is reported as forwarded
    to 5.  And after ten rules the FLOW_RULE packet is discarded: the DATA
    packet finds no rule. *)
Lemma flow_rule_shadowed_or_discarded :
  let fr := fun (s d nh : byte) =>
    ([x0e; x12; x00; d; x00; s; x40; x01; x00; nh; x00; x00; x00; x00], 14) in
  let dp := [x07; x01; x00; x02; x00; x01; x40] in
  (process_wise_packet dp 7
     (process_all [fr x01 x02 x05; fr x01 x02 x09] init_agent)).2
    = [Info_rx 1 1 2 64; Info_forwarding 5] /\
  (process_wise_packet dp 7
     (process_all (replicate 10 (fr x03 x04 x05) ++ [fr x01 x02 x09])
        init_agent)).2
    = [Info_rx 1 1 2 64; Warn_no_flow_rule] /\
  ~ (forall (s : agent) (f : list byte) (len : Z) (d : list byte) (len' : Z),
       wf s -> hdr_type f = WISE_TYPE_FLOW_RULE -> 14 <= len ->
       is_data_for (hdr_src f) (hdr_dst f) (d, len') ->
       (process_wise_packet d len' (process_wise_packet f len s).1).2
       = [Info_rx (hdr_type d) (hdr_src d) (hdr_dst d) (hdr_ttl d);
          Info_forwarding (256 * byte_at f 8 + byte_at f 9)]).
Proof.
  intros fr dp. split; [reflexivity|]. split; [reflexivity|].
  intros H.
  specialize (H (process_all [fr x01 x02 x05] init_agent)
                (fr x01 x02 x09).1 14 dp 7).
  assert (Hwf : wf (process_all [fr x01 x02 x05] init_agent))
    by apply wf_process_all, wf_init.
  specialize (H Hwf eq_refl).
  assert (Hlen : 14 <= 14) by lia. specialize (H Hlen).
  assert (Hd : is_data_for (hdr_src (fr x01 x02 x09).1)
                 (hdr_dst (fr x01 x02 x09).1) (dp, 7)).
  { repeat split; reflexivity. }
  specialize (H Hd). vm_compute in H. discriminate.
Qed.

(** C6 (amended). When the table has a free slot and no active rule in use
    for the (source, destination) of a FLOW_RULE packet of at least 14 bytes,
    then after that packet, and after any further packets, a DATA packet with
    the same (source, destination) is reported as forwarded to the next hop
    the FLOW_RULE packet carries big-endian at offsets 8-9. *)
Theorem flow_rule_then_data_forwards (fr : list byte) (len : Z)
    (pkts : list (list byte * Z)) (dp : list byte) (len' : Z) (s : agent) :
  wf s -> flow_count s < MAX_FLOW_RULES ->
  flow_table_lookup (hdr_src fr) (hdr_dst fr) s = None ->
  hdr_type fr = WISE_TYPE_FLOW_RULE -> 14 <= len ->
  is_data_for (hdr_src fr) (hdr_dst fr) (dp, len') ->
  let s1 := (process_wise_packet fr len s).1 in
  let s2 := process_all pkts s1 in
  (process_wise_packet dp len' s2).2 =
  [Info_rx (hdr_type dp) (hdr_src dp) (hdr_dst dp) (hdr_ttl dp);
   Info_forwarding (256 * byte_at fr 8 + byte_at fr 9)].
Proof.
  intros Hwf Hroom Hnone Ht Hlen (Hlen' & Htd & Hs & Hd) s1 s2.
  cbn [fst snd] in Hlen', Htd, Hs, Hd.
  set (src := hdr_src fr) in *. set (dst := hdr_dst fr) in *.
  set (nh := be16 (byte_at fr 8) (byte_at fr 9)).
  assert (E1 : s1 = add_state src dst (byte_at fr 7) nh (incr_received s)).
  { subst s1. apply process_flow_rule; assumption. }
  set (i := Z.to_nat (flow_count s)).
  assert (Hwf1 : wf s1) by (subst s1; apply wf_process, Hwf).
  assert (Hl1 : flow_table_lookup src dst s1 = Some i).
  { rewrite E1, lookup_add by assumption.
    change (flow_table_lookup src dst (incr_received s))
      with (flow_table_lookup src dst s).
    rewrite Hnone. unfold rule_matches. simpl. rewrite !Z.eqb_refl. reflexivity. }
  assert (Hh1 : holds_rule s1 i src dst (byte_at fr 7) nh).
  { exists 0. rewrite E1. unfold add_state. rewrite add_room by assumption.
    simpl. apply list_lookup_insert_eq. destruct Hwf as [Hl Hc].
    rewrite Hl. subst i. unfold MAX_FLOW_RULES in *. lia. }
  destruct (pinned_process_all src dst (byte_at fr 7) nh i pkts s1 Hwf1 Hl1 Hh1)
    as (Hwf2 & Hl2 & [c Hc]).
  fold s2 in Hwf2, Hl2, Hc.
  rewrite <- Hs, <- Hd in Hl2.
  destruct (process_data_hit dp len' s2 i _ Hlen' Htd Hl2 Hc) as [Hp _].
  rewrite Hp. cbn [snd next_hop]. subst nh.
  rewrite be16_value by apply byte_at_range. reflexivity.
Qed.

Lemma flow_rule_then_data_forwards_witness :
  (process_wise_packet [x07; x01; x00; x02; x00; x01; x40] 7
     (process_all [([x07; x10; x00; x00; x00; x00; x40], 7)]
        (process_wise_packet
           [x0e; x12; x00; x02; x00; x01; x40; x01; x01; x09; x00; x00; x00; x00]
           14 init_agent).1)).2
  = [Info_rx 1 1 2 64; Info_forwarding 265].
Proof.
  apply (flow_rule_then_data_forwards
           [x0e; x12; x00; x02; x00; x01; x40; x01; x01; x09; x00; x00; x00; x00]
           14 [([x07; x10; x00; x00; x00; x00; x40], 7)]
           [x07; x01; x00; x02; x00; x01; x40] 7 init_agent).
  - exact wf_init.
  - reflexivity.
  - reflexivity.
  - reflexivity.
  - vm_compute. discriminate.
  - repeat split; reflexivity.
Defined.

(** ** The report packet *)

(** The 20 bytes sent, given the eight bytes the code stores: every other
    byte is the one the array held on entry. *)
Lemma report_layout (b : list byte) (v0 v1 v2 v3 v7 v8 v9 v10 : byte) :
  length b = 32%nat ->
  take 20
    (<[10%nat := v10]> (<[9%nat := v9]> (<[8%nat := v8]> (<[7%nat := v7]>
       (<[3%nat := v3]> (<[2%nat := v2]> (<[1%nat := v1]> (<[0%nat := v0]> b))))))))
  = [v0; v1; v2; v3; nth 4 b x00; nth 5 b x00; nth 6 b x00; v7; v8; v9; v10;
     nth 11 b x00; nth 12 b x00; nth 13 b x00; nth 14 b x00; nth 15 b x00;
     nth 16 b x00; nth 17 b x00; nth 18 b x00; nth 19 b x00].
Proof.
  intros H.
  do 32 (destruct b as [|? b]; [discriminate H|]).
  reflexivity.
Qed.

Lemma send_report_not_root (linkaddr buffer0 : list byte) (s : agent) :
  length buffer0 = 32%nat ->
  let node_id := be16 (byte_at linkaddr 6) (byte_at linkaddr 7) in
  let sent := packets_sent (stats s) in
  send_report_to_controller false linkaddr buffer0 s =
  (incr_sent s,
   Some [byte_of_Z 20; byte_of_Z WISE_TYPE_REPORT;
         byte_of_Z (Z.land (Z.shiftr node_id 8) 0xFF);
         byte_of_Z (Z.land node_id 0xFF);
         nth 4 buffer0 x00; nth 5 buffer0 x00; nth 6 buffer0 x00;
         byte_of_Z (Z.land (Z.shiftr sent 24) 0xFF);
         byte_of_Z (Z.land (Z.shiftr sent 16) 0xFF);
         byte_of_Z (Z.land (Z.shiftr sent 8) 0xFF);
         byte_of_Z (Z.land sent 0xFF);
         nth 11 buffer0 x00; nth 12 buffer0 x00; nth 13 buffer0 x00;
         nth 14 buffer0 x00; nth 15 buffer0 x00; nth 16 buffer0 x00;
         nth 17 buffer0 x00; nth 18 buffer0 x00; nth 19 buffer0 x00],
   [Info_report_sent sent (packets_received (stats s))]).
Proof.
  intros H node_id sent. unfold send_report_to_controller.
  cbv zeta. rewrite report_layout by exact H. reflexivity.
Qed.

Lemma be32_bytes (x : Z) :
  0 <= x < 2 ^ 32 ->
  2 ^ 24 * ((x / 2 ^ 24) mod 256) + 2 ^ 16 * ((x / 2 ^ 16) mod 256)
  + 2 ^ 8 * ((x / 2 ^ 8) mod 256) + x mod 256 = x.
Proof.
  intros H.
  change (2 ^ 24) with 16777216. change (2 ^ 16) with 65536.
  change (2 ^ 8) with 256. change (2 ^ 32) with 4294967296 in H.
  Z.to_euclidean_division_equations. lia.
Qed.

(** C7. When the node is the root (sink), [send_report_to_controller]
    returns at once: same state, nothing sent, nothing logged.  Otherwise it
    sends 20 bytes and increments [packets_sent] by one (as a [uint32_t]),
    leaving the rest of the state alone; bytes 7-10 of the datagram are the
    value [packets_sent] had on entry, big-endian, and bytes 2-3 are the
    node id (bytes 6 and 7 of the link address), big-endian. *)
Theorem report_sent_unless_root (linkaddr buffer0 : list byte) (s : agent) :
  length buffer0 = 32%nat ->
  0 <= packets_sent (stats s) < 2 ^ 32 ->
  send_report_to_controller true linkaddr buffer0 s = (s, None, []) /\
  exists pkt : list byte,
    send_report_to_controller false linkaddr buffer0 s =
      (mk_agent (flow_table s) (flow_count s)
         (mk_stats ((packets_sent (stats s) + 1) mod 2 ^ 32)
                   (packets_received (stats s))
                   (packets_forwarded (stats s))
                   (packets_dropped (stats s))),
       Some pkt,
       [Info_report_sent (packets_sent (stats s)) (packets_received (stats s))])
    /\ length pkt = 20%nat
    /\ 2 ^ 24 * byte_at pkt 7 + 2 ^ 16 * byte_at pkt 8
       + 2 ^ 8 * byte_at pkt 9 + byte_at pkt 10 = packets_sent (stats s)
    /\ byte_at pkt 2 = byte_at linkaddr 6
    /\ byte_at pkt 3 = byte_at linkaddr 7
    /\ 256 * byte_at pkt 2 + byte_at pkt 3
       = be16 (byte_at linkaddr 6) (byte_at linkaddr 7).
Proof.
  intros Hlen Hsent. split; [reflexivity|].
  eexists. split; [apply (send_report_not_root linkaddr buffer0 s Hlen)|].
  split; [reflexivity|].
  pose proof (byte_at_range linkaddr 6) as H6.
  pose proof (byte_at_range linkaddr 7) as H7.
  generalize dependent (byte_at linkaddr 6). intros hi H6.
  generalize dependent (byte_at linkaddr 7). intros lo H7.
  generalize dependent (packets_sent (stats s)). intros x Hsent.
  unfold byte_at. cbn [nth].
  rewrite !stored_byte by lia. rewrite !Z_of_byte_of_Z, !land_255.
  rewrite be16_value by assumption.
  rewrite !Z.mod_mod by lia.
  split; [|split; [|split]].
  - rewrite <- (be32_bytes x Hsent) at 5. lia.
  - change (2 ^ 8) with 256. Z.to_euclidean_division_equations. lia.
  - Z.to_euclidean_division_equations. lia.
  - change (2 ^ 8) with 256. Z.to_euclidean_division_equations. lia.
Qed.

Lemma report_sent_unless_root_witness :
  send_report_to_controller true
    [x00; x12; x4b; x00; x00; x00; x01; x07] (replicate 32 x00)
    (mk_agent (flow_table init_agent) 0 (mk_stats 258 0 0 0))
  = (mk_agent (flow_table init_agent) 0 (mk_stats 258 0 0 0), None, []) /\
  exists pkt : list byte,
    (send_report_to_controller false
       [x00; x12; x4b; x00; x00; x00; x01; x07] (replicate 32 x00)
       (mk_agent (flow_table init_agent) 0 (mk_stats 258 0 0 0))).1.2
    = Some pkt /\ length pkt = 20%nat.
Proof.
  destruct (report_sent_unless_root
              [x00; x12; x4b; x00; x00; x00; x01; x07] (replicate 32 x00)
              (mk_agent (flow_table init_agent) 0 (mk_stats 258 0 0 0)))
    as (Hroot & pkt & Hsend & Hl & _).
  - reflexivity.
  - simpl. lia.
  - split; [exact Hroot|]. exists pkt. rewrite Hsend. split; [reflexivity|exact Hl].
Defined.

(** C8. The reserved bytes of the report are not zeroed: [buffer[32]] is an
    automatic array the code never initialises, and bytes 4-6 and 11-19 of
    the datagram are whatever it held on entry.  With an array that held
    0xff everywhere, the twelve reserved bytes sent are 0xff. *)
Theorem report_reserved_bytes_not_zeroed :
  (send_report_to_controller false
     [x00; x12; x4b; x00; x00; x00; x01; x07] (replicate 32 xff)
     init_agent).1.2
  = Some [x14; x03; x01; x07; xff; xff; xff; x00; x00; x00; x00;
          xff; xff; xff; xff; xff; xff; xff; xff; xff].
Proof. reflexivity. Qed.

(** * Beyond the claims: runs of the started agent *)

(** ** Steps of a run *)

Lemma agent_wakeup_state (p st root : bool) (linkaddr buffer0 : list byte)
    (s : agent) :
  (agent_wakeup p st root linkaddr buffer0 s).1.1
  = if p && negb root then incr_sent s else s.
Proof.
  unfold agent_wakeup, send_report_to_controller.
  destruct p, root; reflexivity.
Qed.

(** A property kept by a received packet and by a sent report is kept by
    every run. *)
Lemma agent_run_invariant (P : agent -> Prop) (linkaddr : list byte) :
  (forall data len s, P s -> P (process_wise_packet data len s).1) ->
  (forall s, P s -> P (incr_sent s)) ->
  forall evs s, P s -> P (agent_run linkaddr evs s).1.
Proof.
  intros Hp Hs evs. induction evs as [|[sender data len|p st root b0] rest IH];
    intros s HP; cbn [agent_run fst].
  - exact HP.
  - apply IH. apply (Hp data len s HP).
  - apply IH. rewrite agent_wakeup_state.
    destruct (p && negb root); [apply Hs|]; exact HP.
Qed.

(** ** The table of a reachable state *)

Lemma wrap32_range (z : Z) : 0 <= wrap32 z < 2 ^ 32.
Proof. unfold wrap32. apply Z.mod_pos_bound. lia. Qed.

Lemma table_inv_startup (linkaddr : list byte) (s : agent) :
  table_inv (agent_startup linkaddr s).1.
Proof.
  split; [apply wf_clear|]. intros j r Hj. cbn in Hj.
  split.
  - intros Hlt. cbn in Hlt. lia.
  - intros _. apply lookup_replicate in Hj as [-> _]. reflexivity.
Qed.

Lemma table_inv_same (s t : agent) :
  flow_table t = flow_table s -> flow_count t = flow_count s ->
  table_inv s -> table_inv t.
Proof.
  intros Ht Hc [[Hl Hb] H]. unfold table_inv, wf. rewrite Ht, Hc. auto.
Qed.

Lemma rule_in_range_hit (r : flow_rule_t) : rule_in_range r -> rule_in_range (hit r).
Proof.
  intros (Ha & Hs & Hd & Hact & Hn & _). unfold rule_in_range, hit. simpl.
  pose proof (wrap32_range (packet_count r + 1)). auto 10.
Qed.

Lemma table_inv_add (src dst act nh : Z) (s : agent) :
  0 <= src < 2 ^ 16 -> 0 <= dst < 2 ^ 16 -> 0 <= act < 2 ^ 8 ->
  0 <= nh < 2 ^ 16 ->
  table_inv s -> table_inv (add_state src dst act nh s).
Proof.
  intros Hs Hd Ha Hn [Hwf H].
  destruct (Z.lt_ge_cases (flow_count s) MAX_FLOW_RULES) as [Hlt|Hge].
  - split; [apply wf_add, Hwf|]. unfold add_state.
    rewrite add_room by assumption. cbn [fst snd flow_table flow_count].
    pose proof (proj2 Hwf) as Hc.
    intros j r Hj.
    destruct (decide (j = Z.to_nat (flow_count s))) as [->|Hne].
    + rewrite list_lookup_insert_eq in Hj
        by (destruct Hwf as [Hl _]; rewrite Hl; unfold MAX_FLOW_RULES in *; lia).
      injection Hj as <-. split; [|lia].
      intros _. unfold rule_in_range. simpl. repeat split; lia.
    + rewrite list_lookup_insert_ne in Hj by auto.
      destruct (H j r Hj) as [H1 H2]. split; intros; [apply H1|apply H2]; lia.
  - unfold add_state. rewrite add_full by assumption. split; assumption.
Qed.

Lemma table_inv_process (data : list byte) (len : Z) (s : agent) :
  table_inv s -> table_inv (process_wise_packet data len s).1.
Proof.
  intros Hinv. destruct (Z.lt_ge_cases len 7).
  { rewrite process_short by assumption. exact Hinv. }
  rewrite process_long by assumption. cbn [fst].
  assert (Hinv' : table_inv (incr_received s))
    by (apply (table_inv_same s); auto).
  destruct (wise_switch_cases data len (incr_received s)); cbn [fst];
    try exact Hinv'.
  - apply (table_inv_add (hdr_src data) (hdr_dst data) (byte_at data 7)
             (be16 (byte_at data 8) (byte_at data 9)) (incr_received s));
      try apply be16_range; try apply byte_at_range; exact Hinv'.
  - destruct Hinv' as [Hwf Hs]. pose proof (lookup_lt _ _ _ _ H1) as Hi.
    split.
    + destruct Hwf as [Hl Hc]. split; simpl; [rewrite length_alter|]; assumption.
    + cbn [incr_forwarded incr_packet_count flow_table flow_count].
      intros j r Hj. rewrite list_lookup_alter in Hj.
      destruct (decide (i = j)) as [->|Hne].
      * destruct (flow_table (incr_received s) !! j) as [r0|] eqn:E;
          [|discriminate]. injection Hj as <-.
        destruct (Hs j r0 E) as [H1' _]. split; [|lia].
        intros _. apply rule_in_range_hit, H1', Hi.
      * apply Hs, Hj.
Qed.

Lemma table_inv_run (linkaddr : list byte) (evs : list agent_event) (s : agent) :
  table_inv s -> table_inv (agent_run linkaddr evs s).1.
Proof.
  apply agent_run_invariant.
  - intros data len t. apply table_inv_process.
  - intros t. apply table_inv_same; reflexivity.
Qed.

Lemma stats_in_range_process (data : list byte) (len : Z) (s : agent) :
  stats_in_range (stats s) -> stats_in_range (stats (process_wise_packet data len s).1).
Proof.
  intros (Hs & Hr & Hf & Hd). destruct (Z.lt_ge_cases len 7).
  { rewrite process_short by assumption. repeat split; tauto. }
  rewrite process_long by assumption. cbn [fst].
  pose proof (wrap32_range (packets_received (stats s) + 1)).
  pose proof (wrap32_range (packets_forwarded (stats s) + 1)).
  pose proof (wrap32_range (packets_dropped (stats s) + 1)).
  destruct (wise_switch_cases data len (incr_received s)); cbn [fst];
    try rewrite add_stats;
    unfold stats_in_range; simpl; auto 10.
Qed.

Lemma stats_in_range_run (linkaddr : list byte) (evs : list agent_event)
    (s : agent) :
  stats_in_range (stats s) -> stats_in_range (stats (agent_run linkaddr evs s).1).
Proof.
  apply (agent_run_invariant (fun t => stats_in_range (stats t))).
  - intros data len t. apply stats_in_range_process.
  - intros t (Hs & Hr & Hf & Hd). unfold stats_in_range. simpl.
    pose proof (wrap32_range (packets_sent (stats t) + 1)). auto 10.
Qed.

Lemma count_active_all (l : list flow_rule_t) :
  Forall (fun r => active r <> 0) l -> count_active l = length l.
Proof.
  induction 1 as [|r l Hr _ IH]; [reflexivity|].
  unfold count_active in *. simpl.
  destruct (Z.eqb_spec (active r) 0); [contradiction|]. simpl. rewrite IH.
  reflexivity.
Qed.

Lemma count_active_none (l : list flow_rule_t) :
  Forall (fun r => r = zero_rule) l -> count_active l = 0%nat.
Proof.
  induction 1 as [|r l Hr _ IH]; [reflexivity|].
  subst r. unfold count_active in *. simpl. exact IH.
Qed.

Lemma table_inv_count_active (s : agent) :
  table_inv s -> Z.of_nat (count_active (flow_table s)) = flow_count s.
Proof.
  intros [[Hl Hc] H]. set (n := Z.to_nat (flow_count s)).
  rewrite <- (take_drop n (flow_table s)), count_active_app.
  rewrite count_active_all, count_active_none.
  - rewrite length_take, Hl. subst n. unfold MAX_FLOW_RULES in *. lia.
  - apply Forall_lookup. intros j r Hj. rewrite lookup_drop in Hj.
    apply (H _ _ Hj). subst n. lia.
  - apply Forall_lookup. intros j r Hj. rewrite lookup_take in Hj.
    destruct (decide (j < n)%nat) as [Hlt|]; [|discriminate].
    destruct (H _ _ Hj) as [H1 _].
    destruct H1 as (Ha & _); [subst n; lia|]. rewrite Ha. discriminate.
Qed.

(** X1. In every state the started agent can reach, whatever datagrams
    arrive and whenever the process is woken up, the flow table has its ten
    slots, [flow_count] is between 0 and 10, the slots below [flow_count]
    are active and hold values within their C types, the slots from
    [flow_count] on are all-zero, the number of active slots is
    [flow_count], and the four counters are within [uint32_t]. *)
Theorem reachable_state_shape (linkaddr : list byte) (s0 : agent)
    (evs : list agent_event) :
  let s := (agent_run linkaddr evs (agent_startup linkaddr s0).1).1 in
  length (flow_table s) = 10%nat /\
  0 <= flow_count s <= 10 /\
  (forall (j : nat) (r : flow_rule_t), flow_table s !! j = Some r ->
     (Z.of_nat j < flow_count s -> rule_in_range r) /\
     (flow_count s <= Z.of_nat j -> r = zero_rule)) /\
  Z.of_nat (count_active (flow_table s)) = flow_count s /\
  stats_in_range (stats s).
Proof.
  intros s.
  assert (Hinv : table_inv s)
    by apply table_inv_run, table_inv_startup.
  assert (Hst : stats_in_range (stats s)).
  { apply stats_in_range_run. unfold stats_in_range. simpl. lia. }
  pose proof (table_inv_count_active s Hinv) as Hca.
  destruct Hinv as [[Hl Hc] H]. auto.
Qed.

(** ** Hit counts and the forwarded counter *)

Lemma sum_hits_cons (x : flow_rule_t) (l : list flow_rule_t) :
  sum_hits (x :: l) = packet_count x + sum_hits l.
Proof. reflexivity. Qed.

Lemma sum_hits_alter (f : flow_rule_t -> flow_rule_t) (tbl : list flow_rule_t)
    (i : nat) (r : flow_rule_t) :
  tbl !! i = Some r ->
  sum_hits (alter f i tbl) = sum_hits tbl - packet_count r + packet_count (f r).
Proof.
  revert i. induction tbl as [|x tbl IH]; intros i Hi; [discriminate|].
  destruct i as [|i].
  - injection Hi as ->.
    change (alter f 0%nat (r :: tbl)) with (f r :: tbl).
    rewrite !sum_hits_cons. lia.
  - change (alter f (S i) (x :: tbl)) with (x :: alter f i tbl).
    rewrite !sum_hits_cons, (IH i Hi). lia.
Qed.

Lemma sum_hits_insert (x : flow_rule_t) (tbl : list flow_rule_t) (i : nat)
    (r : flow_rule_t) :
  tbl !! i = Some r ->
  sum_hits (<[i := x]> tbl) = sum_hits tbl - packet_count r + packet_count x.
Proof.
  revert i. induction tbl as [|y tbl IH]; intros i Hi; [discriminate|].
  destruct i as [|i].
  - injection Hi as ->.
    change (<[0%nat := x]> (r :: tbl)) with (x :: tbl).
    rewrite !sum_hits_cons. lia.
  - change (<[S i := x]> (y :: tbl)) with (y :: <[i := x]> tbl).
    rewrite !sum_hits_cons, (IH i Hi). lia.
Qed.

Lemma sum_hits_zero (n : nat) : sum_hits (replicate n zero_rule) = 0.
Proof.
  induction n as [|n IH]; [reflexivity|].
  change (replicate (S n) zero_rule) with (zero_rule :: replicate n zero_rule).
  rewrite sum_hits_cons, IH. reflexivity.
Qed.

Lemma hits_agree_process (data : list byte) (len : Z) (s : agent) :
  table_inv s -> hits_agree s -> hits_agree (process_wise_packet data len s).1.
Proof.
  intros Hinv Hag. destruct (Z.lt_ge_cases len 7).
  { rewrite process_short by assumption. exact Hag. }
  rewrite process_long by assumption. cbn [fst].
  assert (Hinv' : table_inv (incr_received s))
    by (apply (table_inv_same s); auto).
  assert (Hag' : hits_agree (incr_received s)) by exact Hag.
  destruct (wise_switch_cases data len (incr_received s)) as
    [Ht Hlen|Ht Hlen|i Ht Hl|Ht Hl|Ht|Ht1 Ht2 Ht3]; cbn [fst]; try exact Hag'.
  - destruct (Z.lt_ge_cases (flow_count (incr_received s)) MAX_FLOW_RULES)
      as [Hlt|Hge].
    + rewrite add_room by (destruct Hinv'; assumption).
      unfold hits_agree. cbn [fst snd flow_table stats].
      destruct Hinv' as [[Hlen' Hc] Hs].
      assert (Hin : (Z.to_nat (flow_count (incr_received s))
                     < length (flow_table (incr_received s)))%nat).
      { rewrite Hlen'. unfold MAX_FLOW_RULES in *. lia. }
      destruct (lookup_lt_is_Some_2 _ _ Hin) as [r0 Hr0].
      rewrite (sum_hits_insert _ _ _ r0 Hr0).
      destruct (Hs _ _ Hr0) as [_ Hz]. rewrite Hz by lia. simpl.
      replace (sum_hits (flow_table s) - 0 + 0 - packets_forwarded (stats s))
        with (sum_hits (flow_table s) - packets_forwarded (stats s)) by lia.
      exact Hag.
    + rewrite add_full by assumption. exact Hag'.
  - destruct (lookup_Some_slot _ _ _ _ Hl) as (r & Hr & _).
    unfold hits_agree in *. cbn [incr_forwarded incr_packet_count flow_table stats
                                 packets_forwarded].
    rewrite (sum_hits_alter hit _ i r Hr). unfold hit, wrap32. simpl.
    change (stats (incr_received s)) with
      (mk_stats (packets_sent (stats s)) (wrap32 (packets_received (stats s) + 1))
                (packets_forwarded (stats s)) (packets_dropped (stats s))) in *.
    cbn [packets_forwarded] in *.
    change (flow_table (incr_received s)) with (flow_table s) in *.
    change (2 ^ 32) with 4294967296 in *.
    Z.to_euclidean_division_equations. lia.
Qed.

(** X2. In every state the started agent can reach, the sum of the
    [packet_count] fields of the table, modulo 2^32, is [packets_forwarded]:
    every forwarded packet is counted on exactly one rule. *)
Theorem reachable_hits_match_forwarded (linkaddr : list byte) (s0 : agent)
    (evs : list agent_event) :
  let s := (agent_run linkaddr evs (agent_startup linkaddr s0).1).1 in
  sum_hits (flow_table s) mod 2 ^ 32 = packets_forwarded (stats s).
Proof.
  intros s.
  assert (H : table_inv s /\ hits_agree s).
  { apply (agent_run_invariant (fun t => table_inv t /\ hits_agree t)).
    - intros data len t [Hi Ha]. split;
        [apply table_inv_process, Hi | apply hits_agree_process; assumption].
    - intros t [Hi Ha]. split; [apply (table_inv_same t); auto | exact Ha].
    - split; [apply table_inv_startup|]. unfold hits_agree. cbn.
      reflexivity. }
  destruct H as [_ Ha].
  assert (Hst : stats_in_range (stats s)).
  { apply stats_in_range_run. unfold stats_in_range. simpl. lia. }
  destruct Hst as (_ & _ & Hf & _). unfold hits_agree in Ha.
  change (2 ^ 32) with 4294967296 in *.
  Z.to_euclidean_division_equations. lia.
Qed.

(** ** Counting the events of a run *)

Lemma switch_stats_frame (data : list byte) (len : Z) (t : agent) :
  packets_sent (stats (wise_switch data len t).1) = packets_sent (stats t).
Proof.
  destruct (wise_switch_cases data len t); try reflexivity.
  simpl. rewrite add_stats. reflexivity.
Qed.

Lemma process_sent (data : list byte) (len : Z) (s : agent) :
  packets_sent (stats (process_wise_packet data len s).1) = packets_sent (stats s).
Proof.
  destruct (Z.lt_ge_cases len 7).
  - rewrite process_short by assumption. reflexivity.
  - rewrite process_long by assumption. cbn [fst].
    rewrite switch_stats_frame. reflexivity.
Qed.







(** ** The reports of a run *)

Lemma be32_bytes_mod (x : Z) :
  2 ^ 24 * ((x / 2 ^ 24) mod 256) + 2 ^ 16 * ((x / 2 ^ 16) mod 256)
  + 2 ^ 8 * ((x / 2 ^ 8) mod 256) + x mod 256 = x mod 2 ^ 32.
Proof.
  change (2 ^ 24) with 16777216. change (2 ^ 16) with 65536.
  change (2 ^ 8) with 256. change (2 ^ 32) with 4294967296.
  Z.to_euclidean_division_equations. lia.
Qed.

(** The header and the counter field of a report, whatever the array held. *)
Lemma report_fields (linkaddr buffer0 : list byte) (s : agent) :
  length buffer0 = 32%nat ->
  exists d : list byte,
    (send_report_to_controller false linkaddr buffer0 s).1.2 = Some d /\
    length d = 20%nat /\
    byte_at d 0 = 20 /\ byte_at d 1 = WISE_TYPE_REPORT /\
    be16 (byte_at d 2) (byte_at d 3) = be16 (byte_at linkaddr 6) (byte_at linkaddr 7) /\
    be32_at d 7 = packets_sent (stats s) mod 2 ^ 32.
Proof.
  intros Hlen. eexists.
  rewrite (send_report_not_root linkaddr buffer0 s Hlen). cbn [fst snd].
  split; [reflexivity|]. split; [reflexivity|].
  split; [reflexivity|]. split; [reflexivity|].
  pose proof (byte_at_range linkaddr 6) as H6.
  pose proof (byte_at_range linkaddr 7) as H7.
  generalize dependent (byte_at linkaddr 6). intros hi H6.
  generalize dependent (byte_at linkaddr 7). intros lo H7.
  generalize dependent (packets_sent (stats s)). intros x.
  unfold be32_at, byte_at. cbn [nth Nat.add].
  rewrite !stored_byte by lia. rewrite !Z_of_byte_of_Z, !land_255.
  rewrite !Z.mod_mod by lia. split.
  - rewrite (be16_value hi lo) by assumption.
    rewrite be16_value by (apply Z.mod_pos_bound; lia).
    change (2 ^ 8) with 256. Z.to_euclidean_division_equations. lia.
  - apply be32_bytes_mod.
Qed.

Lemma agent_wakeup_sent (p st root : bool) (linkaddr buffer0 : list byte)
    (s : agent) :
  (agent_wakeup p st root linkaddr buffer0 s).1.2
  = if p && negb root
    then (send_report_to_controller false linkaddr buffer0 s).1.2
    else None.
Proof.
  unfold agent_wakeup, send_report_to_controller.
  destruct p, root; reflexivity.
Qed.

Lemma run_datagrams (linkaddr : list byte) (evs : list agent_event) (s : agent)
    (k : nat) (d : list byte) :
  Forall event_ok evs ->
  (agent_run linkaddr evs s).2 !! k = Some d ->
  length d = 20%nat /\
  byte_at d 0 = 20 /\ byte_at d 1 = WISE_TYPE_REPORT /\
  be16 (byte_at d 2) (byte_at d 3) = be16 (byte_at linkaddr 6) (byte_at linkaddr 7) /\
  be32_at d 7 = (packets_sent (stats s) + Z.of_nat k) mod 2 ^ 32.
Proof.
  intros Hok. revert s k.
  induction Hok as [|ev rest Hev _ IH]; intros s k Hk; [discriminate|].
  destruct ev as [sender data len|p st root b0]; cbn [agent_run snd] in Hk.
  - destruct (IH _ _ Hk) as (H1 & H2 & H3 & H4 & H5).
    cbn [udp_rx_callback fst] in H5. rewrite process_sent in H5. auto.
  - cbn [event_ok] in Hev.
    rewrite agent_wakeup_sent, agent_wakeup_state in Hk.
    destruct (p && negb root).
    + destruct (report_fields linkaddr b0 s Hev)
        as (d0 & Hd0 & F1 & F2 & F3 & F4 & F5).
      rewrite Hd0 in Hk. destruct k as [|k].
      * injection Hk as <-. rewrite Z.add_0_r. auto.
      * cbn in Hk. destruct (IH _ _ Hk) as (H1 & H2 & H3 & H4 & H5).
        cbn in H5. unfold wrap32 in H5. rewrite Zplus_mod_idemp_l in H5.
        repeat split; auto. rewrite H5. f_equal. lia.
    + apply (IH _ _ Hk).
Qed.

(** X4. The reports of a run carry a sequence number: the [k]-th datagram
    sent since the start (counting from 0) has 20 bytes, declared length 20,
    type REPORT, the node id at offsets 2-3, and [k] modulo 2^32 big-endian
    at offsets 7-10, whatever datagrams were received in between. *)
Theorem run_reports_numbered (linkaddr : list byte) (s0 : agent)
    (evs : list agent_event) (k : nat) (d : list byte) :
  Forall event_ok evs ->
  (agent_run linkaddr evs (agent_startup linkaddr s0).1).2 !! k = Some d ->
  length d = 20%nat /\
  byte_at d 0 = 20 /\ byte_at d 1 = WISE_TYPE_REPORT /\
  be16 (byte_at d 2) (byte_at d 3) = be16 (byte_at linkaddr 6) (byte_at linkaddr 7) /\
  be32_at d 7 = Z.of_nat k mod 2 ^ 32.
Proof.
  intros Hok Hk.
  exact (run_datagrams linkaddr evs (agent_startup linkaddr s0).1 k d Hok Hk).
Qed.

Lemma run_reports_numbered_witness :
  let linkaddr := [x00; x12; x4b; x00; x00; x00; x01; x07] in
  let evs := [Wakeup true false false (replicate 32 xff);
              Udp_datagram [] [x07; x01; x00; x02; x00; x01; x40] 7;
              Wakeup true true true (replicate 32 xff);
              Wakeup true true false (replicate 32 x00)] in
  exists d : list byte,
    (agent_run linkaddr evs (agent_startup linkaddr init_agent).1).2 !! 1%nat
      = Some d /\
    be32_at d 7 = 1 /\ be16 (byte_at d 2) (byte_at d 3) = 263.
Proof.
  intros linkaddr evs. eexists. split; [reflexivity|].
  destruct (run_reports_numbered linkaddr init_agent evs 1
              (nth 1 (agent_run linkaddr evs
                        (agent_startup linkaddr init_agent).1).2 []))
    as (_ & _ & _ & H4 & H5).
  - repeat (apply Forall_cons; split; [try exact I; reflexivity|]).
    apply Forall_nil. exact I.
  - reflexivity.
  - split; [exact H5 | exact H4].
Defined.

(** ** Installed rules *)

Lemma hit_with_count (c : Z) (r : flow_rule_t) :
  hit (with_count c r) = with_count (wrap32 (c + 1)) r.
Proof. reflexivity. Qed.

(** X5. No run removes or rewrites an installed rule: a slot in use keeps
    its [active], [src_addr], [dst_addr], [action] and [next_hop] (only its
    [packet_count] moves), and [flow_count] never decreases and stays within
    the capacity. *)
Theorem installed_rules_persist (linkaddr : list byte) (evs : list agent_event)
    (s : agent) (j : nat) (r : flow_rule_t) :
  wf s -> Z.of_nat j < flow_count s -> flow_table s !! j = Some r ->
  let s' := (agent_run linkaddr evs s).1 in
  flow_count s <= flow_count s' <= MAX_FLOW_RULES /\
  exists c : Z, flow_table s' !! j = Some (with_count c r).
Proof.
  intros Hwf Hj Hr s'.
  assert (H : wf s' /\ flow_count s <= flow_count s' /\
              exists c : Z, flow_table s' !! j = Some (with_count c r)).
  { apply (agent_run_invariant
             (fun t => wf t /\ flow_count s <= flow_count t /\
                       exists c : Z, flow_table t !! j = Some (with_count c r))).
    - intros data len t (Hwt & Hct & c & Hc).
      split; [apply wf_process, Hwt|].
      pose proof (count_process data len t Hwt). split; [lia|].
      destruct (slot_process j data len t Hwt ltac:(lia)) as [E|(_ & _ & _ & E)];
        rewrite E, Hc; eexists; [reflexivity|].
      simpl. rewrite hit_with_count. reflexivity.
    - intros t H. exact H.
    - split; [exact Hwf|]. split; [lia|].
      exists (packet_count r). rewrite Hr. destruct r. reflexivity. }
  destruct H as ([_ Hc] & Hle & Hex). split; [lia|exact Hex].
Qed.

Lemma installed_rules_persist_witness :
  let s := add_state 1 2 1 3 init_agent in
  let evs := [Udp_datagram [] [x07; x01; x00; x02; x00; x01; x40] 7;
              Udp_datagram []
                [x0e; x12; x00; x02; x00; x01; x40; x00; x00; x09;
                 x00; x00; x00; x00] 14;
              Wakeup true true false (replicate 32 x00)] in
  1 <= flow_count (agent_run [] evs s).1 <= MAX_FLOW_RULES /\
  exists c : Z,
    flow_table (agent_run [] evs s).1 !! 0%nat
    = Some (with_count c (mk_flow_rule 1 1 2 1 3 0)).
Proof.
  intros s evs.
  apply (installed_rules_persist [] evs s 0 (mk_flow_rule 1 1 2 1 3 0)).
  - apply wf_add, wf_init.
  - reflexivity.
  - reflexivity.
Defined.

(** X6. The answer to a key is stable: once a slot answers a (source,
    destination), that slot answers it after every run, and a DATA packet
    for the key is reported as forwarded to the next hop the slot had at the
    beginning.  Later FLOW_RULE packets cannot redirect the flow. *)
Theorem forwarding_is_stable (linkaddr : list byte) (evs : list agent_event)
    (s : agent) (src dst : Z) (i : nat) (r : flow_rule_t) (dp : list byte)
    (len : Z) :
  wf s -> flow_table_lookup src dst s = Some i -> flow_table s !! i = Some r ->
  is_data_for src dst (dp, len) ->
  let s' := (agent_run linkaddr evs s).1 in
  flow_table_lookup src dst s' = Some i /\
  (process_wise_packet dp len s').2
  = [Info_rx (hdr_type dp) (hdr_src dp) (hdr_dst dp) (hdr_ttl dp);
     Info_forwarding (next_hop r)].
Proof.
  intros Hwf Hl Hr (Hlen & Ht & Hs & Hd) s'. cbn [fst snd] in Hlen, Ht, Hs, Hd.
  assert (H : wf s' /\ flow_table_lookup src dst s' = Some i /\
              exists c : Z, flow_table s' !! i = Some (with_count c r)).
  { apply (agent_run_invariant
             (fun t => wf t /\ flow_table_lookup src dst t = Some i /\
                       exists c : Z, flow_table t !! i = Some (with_count c r))).
    - intros data l t (Hwt & Hlt & c & Hc).
      split; [apply wf_process, Hwt|].
      split; [apply lookup_process; assumption|].
      pose proof (lookup_lt _ _ _ _ Hlt) as Hi.
      destruct (slot_process i data l t Hwt Hi) as [E|(_ & _ & _ & E)];
        rewrite E, Hc; eexists; [reflexivity|].
      simpl. rewrite hit_with_count. reflexivity.
    - intros t H. exact H.
    - split; [exact Hwf|]. split; [exact Hl|].
      exists (packet_count r). rewrite Hr. destruct r. reflexivity. }
  destruct H as (Hwf' & Hl' & c & Hc). split; [exact Hl'|].
  subst src dst.
  destruct (process_data_hit dp len s' i _ Hlen Ht Hl' Hc) as [Hp _].
  rewrite Hp. reflexivity.
Qed.

Lemma forwarding_is_stable_witness :
  let s := add_state 1 2 1 3 init_agent in
  let evs := [Udp_datagram []
                [x0e; x12; x00; x02; x00; x01; x40; x01; x00; x09;
                 x00; x00; x00; x00] 14] in
  flow_table_lookup 1 2 (agent_run [] evs s).1 = Some 0%nat /\
  (process_wise_packet [x07; x01; x00; x02; x00; x01; x40] 7
     (agent_run [] evs s).1).2
  = [Info_rx 1 1 2 64; Info_forwarding 3].
Proof.
  intros s evs.
  apply (forwarding_is_stable [] evs s 1 2 0 (mk_flow_rule 1 1 2 1 3 0)
           [x07; x01; x00; x02; x00; x01; x40] 7).
  - apply wf_add, wf_init.
  - reflexivity.
  - reflexivity.
  - repeat split; reflexivity.
Defined.

(** ** The bytes a packet is read at *)

Lemma wise_switch_ext (data data' : list byte) (len : Z) (t : agent) :
  hdr_type data = hdr_type data' -> hdr_src data = hdr_src data' ->
  hdr_dst data = hdr_dst data' ->
  (forall i, (7 <= i <= 9)%nat -> byte_at data i = byte_at data' i) ->
  wise_switch data len t = wise_switch data' len t.
Proof.
  intros Ht Hs Hd Hp. unfold wise_switch.
  rewrite Ht, Hs, Hd, (Hp 7%nat), (Hp 8%nat), (Hp 9%nat) by lia. reflexivity.
Qed.

(** X7. [process_wise_packet] reads the buffer at offsets 1 to 9 only: two
    buffers that agree there give the same state and the same trace, so the
    declared length at offset 0 and everything from offset 10 on are never
    looked at.  The TTL at offset 6 is only logged: buffers that agree at
    offsets 1-5 and 7-9 give the same state. *)
Theorem packet_bytes_read (data data' : list byte) (len : Z) (s : agent) :
  ((forall i, (1 <= i <= 9)%nat -> nth i data x00 = nth i data' x00) ->
   process_wise_packet data len s = process_wise_packet data' len s) /\
  ((forall i, (1 <= i <= 5)%nat \/ (7 <= i <= 9)%nat ->
              nth i data x00 = nth i data' x00) ->
   (process_wise_packet data len s).1 = (process_wise_packet data' len s).1).
Proof.
  split; intros H.
  - unfold process_wise_packet.
    assert (Hb : forall i, (1 <= i <= 9)%nat -> byte_at data i = byte_at data' i).
    { intros i Hi. unfold byte_at. rewrite (H i Hi). reflexivity. }
    rewrite (wise_switch_ext data data' len (incr_received s)).
    + unfold hdr_type, hdr_src, hdr_dst, hdr_ttl.
      rewrite (Hb 1%nat), (Hb 2%nat), (Hb 3%nat), (Hb 4%nat), (Hb 5%nat),
        (Hb 6%nat) by lia.
      reflexivity.
    + unfold hdr_type. apply Hb. lia.
    + unfold hdr_src. rewrite (Hb 4%nat), (Hb 5%nat) by lia. reflexivity.
    + unfold hdr_dst. rewrite (Hb 2%nat), (Hb 3%nat) by lia. reflexivity.
    + intros i Hi. apply Hb. lia.
  - assert (Hb : forall i, (1 <= i <= 5)%nat \/ (7 <= i <= 9)%nat ->
                           byte_at data i = byte_at data' i).
    { intros i Hi. unfold byte_at. rewrite (H i Hi). reflexivity. }
    destruct (Z.lt_ge_cases len 7).
    + rewrite !process_short by assumption. reflexivity.
    + rewrite !process_long by assumption. cbn [fst].
      rewrite (wise_switch_ext data data' len (incr_received s)).
      * reflexivity.
      * unfold hdr_type. apply Hb. lia.
      * unfold hdr_src. rewrite (Hb 4%nat), (Hb 5%nat) by lia. reflexivity.
      * unfold hdr_dst. rewrite (Hb 2%nat), (Hb 3%nat) by lia. reflexivity.
      * intros i Hi. apply Hb. lia.
Qed.

Lemma packet_bytes_read_witness :
  process_wise_packet [x07; x01; x00; x02; x00; x01; x40] 7
    (add_state 1 2 1 3 init_agent)
  = process_wise_packet
      [xff; x01; x00; x02; x00; x01; x40; x00; x00; x00; xaa; xbb] 7
      (add_state 1 2 1 3 init_agent) /\
  (process_wise_packet [x07; x01; x00; x02; x00; x01; x40] 7
     (add_state 1 2 1 3 init_agent)).1
  = (process_wise_packet [x07; x01; x00; x02; x00; x01; x00] 7
       (add_state 1 2 1 3 init_agent)).1.
Proof.
  split.
  - apply (proj1 (packet_bytes_read
             [x07; x01; x00; x02; x00; x01; x40]
             [xff; x01; x00; x02; x00; x01; x40; x00; x00; x00; xaa; xbb]
             7 (add_state 1 2 1 3 init_agent))).
    intros i Hi.
    do 10 (destruct i as [|i]; [try lia; reflexivity|]). lia.
  - apply (proj2 (packet_bytes_read
             [x07; x01; x00; x02; x00; x01; x40]
             [x07; x01; x00; x02; x00; x01; x00]
             7 (add_state 1 2 1 3 init_agent))).
    intros i Hi.
    do 10 (destruct i as [|i]; [try lia; reflexivity|]). lia.
Defined.

(** ** FLOW_RULE packets and the other types *)

(** X8. A FLOW_RULE packet of at least 14 bytes installs, in slot
    [flow_count], the rule made of its header addresses, the byte at offset
    7 taken as it is (any value, not only 0, 1, 2) and the big-endian next
    hop at offsets 8-9, with hit count 0, and increments [flow_count]; when
    the table is full it is discarded: only [packets_received] moves and the
    trace ends with the table-full warning. *)
Theorem flow_rule_installs_or_is_discarded (fr : list byte) (len : Z)
    (s : agent) :
  wf s -> hdr_type fr = WISE_TYPE_FLOW_RULE -> 14 <= len ->
  let rx := Info_rx (hdr_type fr) (hdr_src fr) (hdr_dst fr) (hdr_ttl fr) in
  let nh := 256 * byte_at fr 8 + byte_at fr 9 in
  (flow_count s < MAX_FLOW_RULES ->
   process_wise_packet fr len s =
   (mk_agent
      (<[Z.to_nat (flow_count s) :=
           mk_flow_rule 1 (hdr_src fr) (hdr_dst fr) (byte_at fr 7) nh 0]>
         (flow_table s))
      (flow_count s + 1) (stats (incr_received s)),
    [rx; Info_flow_added (hdr_src fr) (hdr_dst fr) (byte_at fr 7) nh])) /\
  (flow_count s = MAX_FLOW_RULES ->
   process_wise_packet fr len s = (incr_received s, [rx; Warn_flow_table_full])).
Proof.
  intros Hwf Ht Hlen rx nh.
  assert (Hnh : be16 (byte_at fr 8) (byte_at fr 9) = nh)
    by (apply be16_value; apply byte_at_range).
  assert (Hp : process_wise_packet fr len s =
               (let r := flow_table_add (hdr_src fr) (hdr_dst fr) (byte_at fr 7)
                           nh (incr_received s) in (r.1.2, rx :: r.2))).
  { rewrite process_long by lia. unfold wise_switch. rewrite Ht.
    change (WISE_TYPE_FLOW_RULE =? WISE_TYPE_FLOW_RULE) with true. cbv iota.
    destruct (Z.leb_spec 14 len); [|lia]. rewrite Hnh. cbv zeta.
    destruct (flow_table_add (hdr_src fr) (hdr_dst fr) (byte_at fr 7) nh
                (incr_received s)) as [[r0 s'] lg].
    subst rx. rewrite Ht. reflexivity. }
  split; intros Hc; rewrite Hp; cbv zeta.
  - rewrite add_room by assumption. reflexivity.
  - rewrite add_full by (simpl; lia). reflexivity.
Qed.

Lemma flow_rule_installs_or_is_discarded_witness :
  let fr := [x0e; x12; x00; x02; x00; x01; x40; xff; x01; x09;
             x00; x00; x00; x00] in
  let full := (add_all (replicate 10 (8, 9, 1, 10)) init_agent).2 in
  flow_table (process_wise_packet fr 14 init_agent).1 !! 0%nat
    = Some (mk_flow_rule 1 1 2 255 265 0) /\
  process_wise_packet fr 14 full
    = (incr_received full, [Info_rx 18 1 2 64; Warn_flow_table_full]).
Proof.
  intros fr full. split.
  - rewrite (proj1 (flow_rule_installs_or_is_discarded fr 14 init_agent
                      wf_init eq_refl ltac:(lia))) by reflexivity.
    reflexivity.
  - apply (proj2 (flow_rule_installs_or_is_discarded fr 14 full
                    ltac:(split; [reflexivity|vm_compute; split; discriminate])
                    eq_refl ltac:(lia))).
    reflexivity.
Defined.

(** X9. A packet with a complete header that is neither a DATA packet nor a
    FLOW_RULE packet of at least 14 bytes changes nothing but
    [packets_received]: a CONFIG packet is acknowledged in the trace, a
    FLOW_RULE packet of 7 to 13 bytes is passed over in silence, and every
    other tag (BEACON, REPORT, REQUEST, RESPONSE, OPEN_PATH and REG_PROXY
    included) is logged as an unknown type. *)
Theorem other_packets_only_counted (data : list byte) (len : Z) (s : agent) :
  7 <= len -> hdr_type data <> WISE_TYPE_DATA ->
  (hdr_type data = WISE_TYPE_FLOW_RULE -> len < 14) ->
  let rx := Info_rx (hdr_type data) (hdr_src data) (hdr_dst data)
                    (hdr_ttl data) in
  (process_wise_packet data len s).1 = incr_received s /\
  (process_wise_packet data len s).2 =
    if hdr_type data =? WISE_TYPE_FLOW_RULE then [rx]
    else if hdr_type data =? WISE_TYPE_CONFIG then [rx; Info_configuration]
    else [rx; Warn_unknown_type (hdr_type data)].
Proof.
  intros Hlen Hnd Hfr rx. rewrite process_long by assumption. cbn [fst snd].
  unfold wise_switch.
  destruct (Z.eqb_spec (hdr_type data) WISE_TYPE_FLOW_RULE) as [Ef|Ef].
  - destruct (Z.leb_spec 14 len); [specialize (Hfr Ef); lia|]. split; reflexivity.
  - destruct (Z.eqb_spec (hdr_type data) WISE_TYPE_DATA); [contradiction|].
    destruct (hdr_type data =? WISE_TYPE_CONFIG); split; reflexivity.
Qed.

Lemma other_packets_only_counted_witness :
  process_wise_packet [x07; x02; x00; x02; x00; x01; x40] 7 init_agent
    = (incr_received init_agent, [Info_rx 2 1 2 64; Warn_unknown_type 2]) /\
  process_wise_packet [x07; x10; x00; x02; x00; x01; x40] 7 init_agent
    = (incr_received init_agent, [Info_rx 16 1 2 64; Info_configuration]) /\
  process_wise_packet
    [x0d; x12; x00; x02; x00; x01; x40; x01; x00; x09; x00; x00; x00] 13
    init_agent
    = (incr_received init_agent, [Info_rx 18 1 2 64]).
Proof.
  split; [|split].
  - destruct (other_packets_only_counted
                [x07; x02; x00; x02; x00; x01; x40] 7 init_agent)
      as [H1 H2]; [lia|discriminate|discriminate|].
    apply injective_projections; [exact H1|exact H2].
  - destruct (other_packets_only_counted
                [x07; x10; x00; x02; x00; x01; x40] 7 init_agent)
      as [H1 H2]; [lia|discriminate|discriminate|].
    apply injective_projections; [exact H1|exact H2].
  - destruct (other_packets_only_counted
                [x0d; x12; x00; x02; x00; x01; x40; x01; x00; x09; x00; x00; x00]
                13 init_agent)
      as [H1 H2]; [lia|discriminate|intros _; lia|].
    apply injective_projections; [exact H1|exact H2].
Defined.

(** ** A report handed to the receive path *)

(** X10. The report format is not the header format of the receive path:
    a report built by [send_report_to_controller], handed to
    [process_wise_packet], passes the length check and is logged as an
    unknown type (REPORT), its destination field reading as the sender's
    node id and its source and TTL fields as bytes 4-6, which the sender
    never wrote; it changes nothing but [packets_received]. *)
Theorem report_received_as_unknown (linkaddr buffer0 : list byte)
    (s t : agent) (d : list byte) :
  length buffer0 = 32%nat ->
  (send_report_to_controller false linkaddr buffer0 s).1.2 = Some d ->
  process_wise_packet d 20 t =
  (incr_received t,
   [Info_rx WISE_TYPE_REPORT
            (be16 (byte_at buffer0 4) (byte_at buffer0 5))
            (be16 (byte_at linkaddr 6) (byte_at linkaddr 7))
            (byte_at buffer0 6);
    Warn_unknown_type WISE_TYPE_REPORT]).
Proof.
  intros Hlen Hd.
  destruct (report_fields linkaddr buffer0 s Hlen) as (d' & Hd' & _ & _ & H1 & H23 & _).
  rewrite Hd in Hd'. injection Hd' as <-.
  rewrite (send_report_not_root linkaddr buffer0 s Hlen) in Hd.
  cbn [fst snd] in Hd. injection Hd as Hd.
  assert (Ht : hdr_type d = WISE_TYPE_REPORT) by exact H1.
  assert (Hdst : hdr_dst d = be16 (byte_at linkaddr 6) (byte_at linkaddr 7))
    by exact H23.
  assert (Hsrc : hdr_src d = be16 (byte_at buffer0 4) (byte_at buffer0 5))
    by (rewrite <- Hd; reflexivity).
  assert (Httl : hdr_ttl d = byte_at buffer0 6) by (rewrite <- Hd; reflexivity).
  rewrite process_long by lia. unfold wise_switch.
  rewrite Ht, Hsrc, Hdst, Httl. reflexivity.
Qed.

Lemma report_received_as_unknown_witness :
  exists d : list byte,
    (send_report_to_controller false
       [x00; x12; x4b; x00; x00; x00; x01; x07] (replicate 32 xaa)
       init_agent).1.2 = Some d /\
    process_wise_packet d 20 init_agent =
    (incr_received init_agent,
     [Info_rx 3 43690 263 170; Warn_unknown_type 3]).
Proof.
  eexists. split; [reflexivity|].
  apply (report_received_as_unknown
           [x00; x12; x4b; x00; x00; x00; x01; x07] (replicate 32 xaa)
           init_agent init_agent).
  - reflexivity.
  - reflexivity.
Defined.

(** ** Clearing and starting *)

(** X11. [flow_table_clear] empties the table from any state: all ten slots
    are zeroed, [flow_count] is 0, the statistics are kept, every lookup
    returns nothing, a DATA packet for any key is dropped, and clearing
    again changes nothing.  The start of the process moreover zeroes the
    statistics, so the state it hands to the callback does not depend on
    what memory held before. *)
Theorem clear_and_startup_reset (linkaddr : list byte) (s : agent) :
  let c := (flow_table_clear s).1 in
  flow_table c = replicate 10 zero_rule /\ flow_count c = 0 /\
  stats c = stats s /\
  (forall src dst : Z, flow_table_lookup src dst c = None) /\
  (forall (data : list byte) (len : Z),
     7 <= len -> hdr_type data = WISE_TYPE_DATA ->
     (process_wise_packet data len c).2
     = [Info_rx (hdr_type data) (hdr_src data) (hdr_dst data) (hdr_ttl data);
        Warn_no_flow_rule]) /\
  (flow_table_clear c).1 = c /\
  (agent_startup linkaddr s).1 = init_agent.
Proof.
  intros c. split; [reflexivity|]. split; [reflexivity|]. split; [reflexivity|].
  split; [intros src dst; reflexivity|].
  split; [|split; reflexivity].
  intros data len Hlen Ht.
  rewrite (process_data_miss data len c Hlen Ht) by reflexivity. reflexivity.
Qed.

Lemma clear_and_startup_reset_witness :
  (process_wise_packet [x07; x01; x00; x02; x00; x01; x40] 7
     (flow_table_clear (add_state 1 2 1 3 init_agent)).1).2
  = [Info_rx 1 1 2 64; Warn_no_flow_rule].
Proof.
  apply (proj1 (proj2 (proj2 (proj2 (proj2
           (clear_and_startup_reset [] (add_state 1 2 1 3 init_agent))))))).
  - lia.
  - reflexivity.
Defined.

(** * The sensor application *)

Lemma string_length_append (a b : string) :
  String.length (a +:+ b) = (String.length a + String.length b)%nat.
Proof. induction a as [|c a IH]; simpl; [reflexivity|]. rewrite IH. reflexivity. Qed.

Lemma substring_whole (s : string) (n : nat) :
  (String.length s <= n)%nat -> String.substring 0 n s = s.
Proof.
  revert n. induction s as [|c s IH]; intros n Hn.
  - destruct n; reflexivity.
  - destruct n as [|n]; simpl in Hn; [lia|]. simpl. rewrite IH by lia. reflexivity.
Qed.

(** The number of digits over a range, by checking every value. *)
Lemma decimal_length_range (lo : Z) (n len : nat) :
  forallb (fun k => String.length (SensorNode.decimal (lo + Z.of_nat k)) =? len)%nat
          (seq 0 n) = true ->
  forall z, lo <= z < lo + Z.of_nat n ->
            String.length (SensorNode.decimal z) = len.
Proof.
  intros H z Hz. rewrite forallb_forall in H.
  specialize (H (Z.to_nat (z - lo))).
  replace (lo + Z.of_nat (Z.to_nat (z - lo))) with z in H by lia.
  apply Nat.eqb_eq, H, in_seq. lia.
Qed.

(** X12. On a node that is not the root and knows a route, whatever
    [rand ()] returns (it returns no negative value), the new readings are
    within 20..29, 50..69 and 100..149, and the datagram sent is the whole
    text SENSOR:temp=T,hum=H,light=L with these readings in decimal: it is 31
    characters long, so the 64-byte buffer never truncates it.  On the root,
    or without a route, nothing is sent and the readings are kept. *)
Theorem sensor_message_fits (platform_native : bool) (r1 r2 r3 : Z)
    (st : SensorNode.readings) :
  (0 <= r1 -> 0 <= r2 -> 0 <= r3 ->
   let res := SensorNode.send_sensor_data false true platform_native r1 r2 r3 st in
   let msg := ("SENSOR:temp=" +:+ SensorNode.decimal (SensorNode.temperature res.1)
               +:+ ",hum=" +:+ SensorNode.decimal (SensorNode.humidity res.1)
               +:+ ",light=" +:+ SensorNode.decimal (SensorNode.light res.1))%string in
   20 <= SensorNode.temperature res.1 <= 29 /\
   50 <= SensorNode.humidity res.1 <= 69 /\
   100 <= SensorNode.light res.1 <= 149 /\
   String.length msg = 31%nat /\
   res.2 = [SensorNode.Udp_sendto msg; SensorNode.Info_sent msg;
            SensorNode.Leds_on_blue] ++
           (if platform_native then [] else [SensorNode.Clock_delay_usec 50000]) ++
           [SensorNode.Leds_off_blue]) /\
  (forall have_root : bool,
     SensorNode.send_sensor_data true have_root platform_native r1 r2 r3 st
     = (st, [])) /\
  SensorNode.send_sensor_data false false platform_native r1 r2 r3 st
  = (st, [SensorNode.Warn_no_route]).
Proof.
  split; [|split; [intros have_root|]; reflexivity].
  intros H1 H2 H3 res msg.
  pose proof (Z.rem_bound_pos r1 10 H1 ltac:(lia)) as B1.
  pose proof (Z.rem_bound_pos r2 20 H2 ltac:(lia)) as B2.
  pose proof (Z.rem_bound_pos r3 50 H3 ltac:(lia)) as B3.
  assert (Ht : SensorNode.temperature res.1 = 20 + Z.rem r1 10) by reflexivity.
  assert (Hh : SensorNode.humidity res.1 = 50 + Z.rem r2 20) by reflexivity.
  assert (Hl : SensorNode.light res.1 = 100 + Z.rem r3 50) by reflexivity.
  assert (Hlen : String.length msg = 31%nat).
  { subst msg. rewrite !string_length_append.
    rewrite (decimal_length_range 20 10 2 eq_refl) by lia.
    rewrite (decimal_length_range 50 20 2 eq_refl) by lia.
    rewrite (decimal_length_range 100 50 3 eq_refl) by lia.
    reflexivity. }
  split; [lia|]. split; [lia|]. split; [lia|]. split; [exact Hlen|].
  subst res. unfold SensorNode.send_sensor_data. cbn [negb snd].
  unfold SensorNode.snprintf.
  rewrite (substring_whole msg) by (rewrite Hlen; simpl; lia).
  reflexivity.
Qed.

Lemma sensor_message_fits_witness :
  (SensorNode.send_sensor_data false true false 1804289383 846930886 1681692777
     SensorNode.initial_readings).2
  = [SensorNode.Udp_sendto "SENSOR:temp=23,hum=56,light=127";
     SensorNode.Info_sent "SENSOR:temp=23,hum=56,light=127";
     SensorNode.Leds_on_blue; SensorNode.Clock_delay_usec 50000;
     SensorNode.Leds_off_blue].
Proof.
  destruct (proj1 (sensor_message_fits false 1804289383 846930886 1681692777
                     SensorNode.initial_readings))
    as (_ & _ & _ & _ & H); [lia|lia|lia|].
  rewrite H. reflexivity.
Defined.

(** * More on insertions *)

Lemma add_all_app (l1 l2 : list (Z * Z * Z * Z)) (s : agent) :
  add_all (l1 ++ l2) s =
  ((add_all l1 s).1 ++ (add_all l2 (add_all l1 s).2).1,
   (add_all l2 (add_all l1 s).2).2).
Proof.
  revert s. induction l1 as [|[[[src dst] act] nh] l1 IH]; intros s.
  - simpl. destruct (add_all l2 s). reflexivity.
  - change (((src, dst, act, nh) :: l1) ++ l2) with ((src, dst, act, nh) :: (l1 ++ l2)).
    cbn [add_all fst snd]. rewrite IH. reflexivity.
Qed.

Lemma add_all_full (rules : list (Z * Z * Z * Z)) (s : agent) :
  MAX_FLOW_RULES <= flow_count s ->
  add_all rules s = (replicate (length rules) (-1), s).
Proof.
  intros Hc. induction rules as [|[[[src dst] act] nh] rest IH]; [reflexivity|].
  cbn [add_all]. unfold add_ret, add_state. rewrite add_full by assumption.
  cbn [fst snd]. rewrite IH. reflexivity.
Qed.

(** X13. A sequence of [flow_table_add] calls of any length, from the
    cleared table: the first ten calls return 0, every later call returns -1,
    and the table ends up holding the first ten rules in order (all of them
    when there are fewer), the rest of the slots zero; the statistics are
    not touched. *)
Theorem add_sequence_saturates (s0 : agent) (rules : list (Z * Z * Z * Z)) :
  let r := add_all rules (flow_table_clear s0).1 in
  let n := length rules in
  let k := (n `min` 10)%nat in
  r.1 = replicate k 0 ++ replicate (n - k) (-1) /\
  flow_count r.2 = Z.of_nat k /\
  flow_table r.2 = (new_rule <$> take 10 rules) ++ replicate (10 - k) zero_rule /\
  stats r.2 = stats s0.
Proof.
  intros r n k. subst r.
  assert (E : add_all rules (flow_table_clear s0).1 =
              add_all (take 10 rules ++ drop 10 rules) (flow_table_clear s0).1)
    by (rewrite take_drop; reflexivity).
  rewrite E, add_all_app. clear E. cbn [fst snd].
  assert (Hk : length (take 10 rules) = k) by (rewrite length_take; subst k n; lia).
  destruct (add_all_spec (take 10 rules) (flow_table_clear s0).1 (wf_clear s0))
    as (Hr & Hn & Ht & Hs).
  { rewrite Hk. simpl. unfold MAX_FLOW_RULES. lia. }
  unfold flow_table_clear in Hr, Hn, Ht, Hs |- *.
  cbn [fst flow_count flow_table stats] in *.
  change (Z.to_nat 0) with 0%nat in Ht.
  rewrite take_0, Nat.add_0_l, drop_replicate, Hk in Ht. simpl app in Ht.
  rewrite Hk in Hr, Hn.
  destruct (decide (n <= 10)%nat) as [Hle|Hgt].
  - rewrite (drop_ge rules 10) by (subst n; lia). cbn [add_all fst snd].
    rewrite Hr, Hn, Ht, Hs, app_nil_r.
    replace (n - k)%nat with 0%nat by lia. simpl. rewrite app_nil_r.
    auto.
  - rewrite (add_all_full (drop 10 rules))
      by (rewrite Hn; unfold MAX_FLOW_RULES; lia).
    cbn [fst snd]. rewrite Hr, Hn, Ht, Hs, length_drop.
    replace (length rules - 10)%nat with (n - k)%nat by (subst n k; lia).
    auto.
Qed.
